(** * Shopping-cart backend: cart and order routers, and the storefront's
    checkout calculator.

    Shallow embedding of
    - the cart router (in-memory [carts] Map, routes GET /:userId,
      POST /:userId/items, PUT and DELETE /:userId/items/:itemId,
      DELETE /:userId, GET /:userId/summary),
    - the order router (in-memory [orders] Map, routes POST /,
      PATCH /:orderId/status, PATCH /:orderId/cancel),
    - [calculateSubtotal] and friends of the cart page.

    JavaScript numbers used as money are IEEE binary64 floats, modelled by
    Rocq's primitive [float] (same format and round-to-nearest arithmetic).
    Cart quantities arrive as JSON numbers; they are modelled by a small
    JavaScript value type whose numbers are integers, with [undefined] and
    [NaN] written out, since a missing quantity reaches the arithmetic. *)

From stdpp Require Import base gmap strings list.
From Stdlib Require Import ZArith Floats Sorted.

Set Warnings "-inexact-float".

(* ------------------------------------------------------------------ *)
(** ** JavaScript values as the cart code sees them *)

Module Js.

Inductive value :=
| Num (z : Z)
| Undefined
| NaN.

(** [a + b]: numbers add; [undefined] converts to [NaN], and [NaN]
    absorbs. *)
Definition add (a b : value) : value :=
  match a, b with
  | Num x, Num y => Num (x + y)
  | _, _ => NaN
  end.

(** [a < b]: both sides converted to numbers; any comparison with [NaN]
    (hence with [undefined]) is false. *)
Definition lt (a b : value) : bool :=
  match a, b with
  | Num x, Num y => (x <? y)%Z
  | _, _ => false
  end.

(** Truthiness of a string: only the empty string is falsy. *)
Definition str_truthy (s : string) : bool :=
  match s with EmptyString => false | _ => true end.

(** [s || d] on an optional string ([None] is [undefined]). *)
Definition str_or (s : option string) (d : string) : string :=
  match s with
  | Some x => if str_truthy x then x else d
  | None => d
  end.

(** An object literal [{k1: v1, k2: v2, ...}]: the properties are defined
    from left to right, so a repeated key keeps the value of its last
    occurrence. *)
Definition object_literal {A} (props : list (string * A)) : gmap string A :=
  foldl (fun o kv => <[kv.1 := kv.2]> o) ∅ props.




(** [Array.prototype.sort(compareFn)] for a consistent comparator: the
    sort is stable, and [x] goes after [y] exactly when
    [compareFn(y, x) > 0], which [after y x] decides. Inserting the
    elements one by one, each after every earlier element it does not
    have to precede, gives that order. *)
Fixpoint insert_sorted {A} (after : A -> A -> bool) (x : A) (l : list A) : list A :=
  match l with
  | [] => [x]
  | y :: l' => if after y x then x :: y :: l' else y :: insert_sorted after x l'
  end.

Definition sort {A} (after : A -> A -> bool) (l : list A) : list A :=
  foldl (fun acc x => insert_sorted after x acc) [] l.

(** [[...new Set(l)]]: the distinct elements, in order of first
    occurrence. *)
Definition dedup {A} `{EqDecision A} (l : list A) : list A :=
  foldl (fun seen x => if bool_decide (x ∈ seen) then seen else seen ++ [x]) [] l.

End Js.

(* ------------------------------------------------------------------ *)
(** ** Cart router *)

Module Cart.

Record cart_item := {
  id : string;
  productId : string;
  quantity : Js.value;
  addedAt : Z
}.

Record cart := {
  items : list cart_item;
  total : Js.value;
  itemCount : Js.value
}.

(** The in-memory [carts] Map, keyed by userId. *)
Abbreviation store := (gmap string cart).

Definition empty_cart : cart := {| items := []; total := Js.Num 0; itemCount := Js.Num 0 |}.

(** [cart.items.reduce((sum, item) => sum + item.quantity, 0)] *)
Definition sum_quantities (l : list cart_item) : Js.value :=
  foldl (fun sum it => Js.add sum it.(quantity)) (Js.Num 0) l.

(** [Array.prototype.findIndex], [None] standing for -1. *)
Fixpoint find_index {A} (p : A -> bool) (l : list A) : option nat :=
  match l with
  | [] => None
  | x :: l' => if p x then Some 0 else S <$> find_index p l'
  end.

(** Responses: a JSON body with [success: true] and data, or an HTTP
    error status with a message. *)
Inductive response :=
| Ok (data : cart)
| Summary (data : gmap string Js.value)
| Done
| Err (status : Z) (msg : string).

(** GET /:userId *)
Definition get_cart (carts : store) (userId : string) : response :=
  Ok (default empty_cart (carts !! userId)).

Definition set_quantity (q : Js.value) (it : cart_item) : cart_item :=
  {| id := it.(id); productId := it.(productId); quantity := q; addedAt := it.(addedAt) |}.

(** POST /:userId/items, body [{productId, quantity = 1}]. A missing
    field of the body is [None]; [fresh] is the value [uuidv4()] returns
    and [now] the time of the request. *)
Definition add_item (carts : store) (userId : string) (productId_ : option string)
    (quantity_ : option Z) (fresh : string) (now : Z) : store * response :=
  let quantity' := Js.Num (default 1%Z quantity_) in
  let missing := match productId_ with Some p => negb (Js.str_truthy p) | None => true end in
  if missing || Js.lt quantity' (Js.Num 1) then
    (carts, Err 400 "Product ID and quantity (min 1) are required")
  else
    let pid := default "" productId_ in
    let cart := default empty_cart (carts !! userId) in
    let items' :=
      match find_index (fun it => bool_decide (it.(productId) = pid)) cart.(items) with
      | Some i => alter (fun it => set_quantity (Js.add it.(quantity) quantity') it) i cart.(items)
      | None => cart.(items) ++ [{| id := fresh; productId := pid; quantity := quantity'; addedAt := now |}]
      end in
    let cart' := {| items := items'; total := cart.(total); itemCount := sum_quantities items' |} in
    (<[userId := cart']> carts, Ok cart').

(** PUT /:userId/items/:itemId, body [{quantity}]. *)
Definition update_item (carts : store) (userId itemId : string) (quantity_ : option Z)
    : store * response :=
  let quantity' := match quantity_ with Some q => Js.Num q | None => Js.Undefined end in
  if Js.lt quantity' (Js.Num 1) then (carts, Err 400 "Quantity must be at least 1")
  else
    match carts !! userId with
    | None => (carts, Err 404 "Cart not found")
    | Some cart =>
        match find_index (fun it => bool_decide (it.(id) = itemId)) cart.(items) with
        | None => (carts, Err 404 "Item not found in cart")
        | Some i =>
            let items' := alter (set_quantity quantity') i cart.(items) in
            let cart' := {| items := items'; total := cart.(total); itemCount := sum_quantities items' |} in
            (<[userId := cart']> carts, Ok cart')
        end
    end.

(** DELETE /:userId/items/:itemId ([splice(itemIndex, 1)]). *)
Definition remove_item (carts : store) (userId itemId : string) : store * response :=
  match carts !! userId with
  | None => (carts, Err 404 "Cart not found")
  | Some cart =>
      match find_index (fun it => bool_decide (it.(id) = itemId)) cart.(items) with
      | None => (carts, Err 404 "Item not found in cart")
      | Some i =>
          let items' := take i cart.(items) ++ drop (S i) cart.(items) in
          let cart' := {| items := items'; total := cart.(total); itemCount := sum_quantities items' |} in
          (<[userId := cart']> carts, Ok cart')
      end
  end.

(** DELETE /:userId *)
Definition clear_cart (carts : store) (userId : string) : store * response :=
  (delete userId carts, Done).

(** GET /:userId/summary: the response object literal lists [itemCount]
    twice. *)
Definition summary (carts : store) (userId : string) : response :=
  let cart := default empty_cart (carts !! userId) in
  Summary (Js.object_literal
    [("itemCount", cart.(itemCount));
     ("total", cart.(total));
     ("itemCount", Js.Num (Z.of_nat (length cart.(items))))]).

(** The mutating routes, as operations on the store. *)
Inductive op :=
| AddItem (userId : string) (productId_ : option string) (quantity_ : option Z) (fresh : string) (now : Z)
| UpdateItem (userId itemId : string) (quantity_ : option Z)
| RemoveItem (userId itemId : string)
| ClearCart (userId : string).

Definition step (carts : store) (o : op) : store * response :=
  match o with
  | AddItem u p q f t => add_item carts u p q f t
  | UpdateItem u i q => update_item carts u i q
  | RemoveItem u i => remove_item carts u i
  | ClearCart u => clear_cart carts u
  end.

Definition run (carts : store) (ops : list op) : store :=
  foldl (fun s o => (step s o).1) carts ops.

(** The [:userId] of an operation's route. *)
Definition op_user (o : op) : string :=
  match o with
  | AddItem u _ _ _ _ | UpdateItem u _ _ | RemoveItem u _ | ClearCart u => u
  end.

(** itemCount and total of every stored cart. *)
Definition count_total_ok (c : cart) : Prop :=
  itemCount c = sum_quantities (items c) /\ total c = Js.Num 0.

(** Every stored quantity is a number of at least 1, or has gone
    [undefined] or [NaN]. *)
Definition qty_ok (v : Js.value) : bool :=
  match v with Js.Num q => (1 <=? q)%Z | _ => true end.

Definition qty_inv (c : cart) : Prop :=
  Forall (fun it => qty_ok (quantity it) = true) (items c) /\ itemCount c = sum_quantities (items c).

End Cart.

(* ------------------------------------------------------------------ *)
(** ** Order router *)

Module Order.

Open Scope float_scope.

(** An element of the request's [items] array, as the cart page sends it. *)
Record req_item := {
  r_productId : string;
  r_name : string;
  r_price : float;
  r_quantity : float
}.

(** [{...item, id: uuidv4()}] *)
Record order_item := {
  item_id : string;
  item : req_item
}.

Record order := {
  id : string;
  userId : string;
  items : list order_item;
  shippingAddress : string;
  paymentMethod : string;
  subtotal : float;
  tax : float;
  shipping : float;
  total : float;
  status : string;
  createdAt : Z;
  updatedAt : Z;
  estimatedDelivery : Z;
  cancellationReason : option string
}.

(** The in-memory [orders] Map: userId to that user's orders, kept in
    insertion order since lookups iterate over [orders.entries()]. *)
Abbreviation store := (list (string * list order)).

Inductive response :=
| Ok (status_code : Z) (data : order)
| Err (status_code : Z) (msg : string).

Definition day_ms : Z := (24 * 60 * 60 * 1000)%Z.

(** [items.reduce((sum, item) => sum + (item.price * item.quantity), 0)] *)
Definition items_total (l : list req_item) : float :=
  foldl (fun sum it => sum + it.(r_price) * it.(r_quantity)) 0 l.

(** [orders.get(userId).push(order)], creating the entry first. *)
Fixpoint push_order (os : store) (u : string) (o : order) : store :=
  match os with
  | [] => [(u, [o])]
  | (u', l) :: rest =>
      if bool_decide (u' = u) then (u', l ++ [o]) :: rest
      else (u', l) :: push_order rest u o
  end.

(** POST /, body [{userId, items, shippingAddress, paymentMethod}].
    A missing field is [None]; [uuid n] is the n-th value [uuidv4()]
    returns while handling the request (the order's id first, then one
    per item), and [now] is [Date.now()]. *)
Definition create_order (orders : store) (userId_ : option string)
    (items_ : option (list req_item)) (shippingAddress_ : option string)
    (paymentMethod_ : option string) (uuid : nat -> string) (now : Z)
    : store * response :=
  let falsy (x : option string) := negb (default false (Js.str_truthy <$> x)) in
  if falsy userId_ || bool_decide (items_ = None) || falsy shippingAddress_ then
    (orders, Err 400 "User ID, items, and shipping address are required")
  else
    let its := default [] items_ in
    if bool_decide (its = []) then (orders, Err 400 "Items must be a non-empty array")
    else
      let total' := items_total its in
      let tax' := total' * 0.08 in
      let shipping' := if 50 <? total' then 0 else 5.99 in
      let grandTotal := total' + tax' + shipping' in
      let u := default "" userId_ in
      let o := {|
        id := uuid O;
        userId := u;
        items := imap (fun i it => {| item_id := uuid (S i); item := it |}) its;
        shippingAddress := default "" shippingAddress_;
        paymentMethod := Js.str_or paymentMethod_ "credit_card";
        subtotal := total';
        tax := tax';
        shipping := shipping';
        total := grandTotal;
        status := "pending";
        createdAt := now;
        updatedAt := now;
        estimatedDelivery := (now + 7 * day_ms)%Z;
        cancellationReason := None |} in
      (push_order orders u o, Ok 201 o).

(** The search loop shared by the lookup routes: the first user, in
    insertion order, whose list holds an order with that id, and the
    first such order there. *)
Fixpoint find_order (orders : store) (orderId : string) : option order :=
  match orders with
  | [] => None
  | (_, l) :: rest =>
      match Cart.find_index (fun o => bool_decide (o.(id) = orderId)) l with
      | Some i => l !! i
      | None => find_order rest orderId
      end
  end.

(** The in-place mutation of the order [find_order] returns. *)
Fixpoint modify_order (f : order -> order) (orders : store) (orderId : string) : store :=
  match orders with
  | [] => []
  | (u, l) :: rest =>
      match Cart.find_index (fun o => bool_decide (o.(id) = orderId)) l with
      | Some i => (u, alter f i l) :: rest
      | None => (u, l) :: modify_order f rest orderId
      end
  end.

Definition validStatuses : list string :=
  ["pending"; "confirmed"; "processing"; "shipped"; "delivered"; "cancelled"].

Definition set_status (s : string) (now : Z) (o : order) : order :=
  {| id := o.(id); userId := o.(userId); items := o.(items);
     shippingAddress := o.(shippingAddress); paymentMethod := o.(paymentMethod);
     subtotal := o.(subtotal); tax := o.(tax); shipping := o.(shipping); total := o.(total);
     status := s; createdAt := o.(createdAt); updatedAt := now;
     estimatedDelivery :=
       if bool_decide (s = "shipped") then (now + 3 * day_ms)%Z else o.(estimatedDelivery);
     cancellationReason := o.(cancellationReason) |}.

(** PATCH /:orderId/status, body [{status}]. *)
Definition update_status (orders : store) (orderId : string) (status_ : option string) (now : Z)
    : store * response :=
  if negb (default false (Js.str_truthy <$> status_)) then (orders, Err 400 "Status is required")
  else
    let s := default "" status_ in
    if negb (bool_decide (s ∈ validStatuses)) then
      (orders, Err 400 "Invalid status. Must be one of: pending, confirmed, processing, shipped, delivered, cancelled")
    else
      match find_order orders orderId with
      | None => (orders, Err 404 "Order not found")
      | Some o =>
          (modify_order (set_status s now) orders orderId, Ok 200 (set_status s now o))
      end.

Definition cancel (reason : string) (now : Z) (o : order) : order :=
  {| id := o.(id); userId := o.(userId); items := o.(items);
     shippingAddress := o.(shippingAddress); paymentMethod := o.(paymentMethod);
     subtotal := o.(subtotal); tax := o.(tax); shipping := o.(shipping); total := o.(total);
     status := "cancelled"; createdAt := o.(createdAt); updatedAt := now;
     estimatedDelivery := o.(estimatedDelivery);
     cancellationReason := Some reason |}.

(** PATCH /:orderId/cancel, body [{reason}]. *)
Definition cancel_order (orders : store) (orderId : string) (reason : option string) (now : Z)
    : store * response :=
  match find_order orders orderId with
  | None => (orders, Err 404 "Order not found")
  | Some o =>
      if bool_decide (o.(status) ∈ ["shipped"; "delivered"]) then
        (orders, Err 400 "Cannot cancel order that has already been shipped or delivered")
      else
        let r := Js.str_or reason "Cancelled by user" in
        (modify_order (cancel r now) orders orderId, Ok 200 (cancel r now o))
  end.

Close Scope float_scope.

End Order.

(** ** Order router: the read routes *)

Module OrderRoutes.
Import Order.

(** [orders.get(userId)] *)
Fixpoint find_user (orders : store) (u : string) : option (list order) :=
  match orders with
  | [] => None
  | (u', l) :: rest => if bool_decide (u' = u) then Some l else find_user rest u
  end.

(** The entry of [u] once its array has been rearranged in place to [l]. *)
Fixpoint set_user (orders : store) (u : string) (l : list order) : store :=
  match orders with
  | [] => []
  | (u', l') :: rest =>
      if bool_decide (u' = u) then (u', l) :: rest else (u', l') :: set_user rest u l
  end.

(** The comparator [(a, b) => new Date(b.createdAt) - new Date(a.createdAt)]:
    [x] goes after [y] when [y] is older. *)
Definition newest_first : order -> order -> bool :=
  fun y x => (y.(createdAt) <? x.(createdAt))%Z.

(** GET /user/:userId: [orders.get(userId) || []], sorted in place, and
    returned with its length. A user without orders gets a fresh empty
    array, which is not stored. *)
Definition get_user_orders (orders : store) (u : string) : store * (list order * nat) :=
  match find_user orders u with
  | Some l =>
      let l' := Js.sort newest_first l in
      (set_user orders u l', (l', length l'))
  | None => (orders, ([], 0))
  end.

(** GET /:orderId *)
Definition get_order (orders : store) (orderId : string) : response :=
  match find_order orders orderId with
  | Some o => Ok 200 o
  | None => Err 404 "Order not found"
  end.

(** GET /stats/overview, the counting part: [totalOrders] and
    [statusCounts]. [statusCounts[order.status]++] on a status that is not
    one of the six initial keys reads [undefined], and stores [NaN]. *)
Definition statusCounts0 : gmap string Js.value :=
  Js.object_literal
    [("pending", Js.Num 0); ("confirmed", Js.Num 0); ("processing", Js.Num 0);
     ("shipped", Js.Num 0); ("delivered", Js.Num 0); ("cancelled", Js.Num 0)].

Definition incr_status (counts : gmap string Js.value) (s : string) : gmap string Js.value :=
  <[s := Js.add (default Js.Undefined (counts !! s)) (Js.Num 1)]> counts.

Definition stats_counts (orders : store) : nat * gmap string Js.value :=
  foldl (fun acc ul =>
           (acc.1 + length ul.2,
            foldl (fun c o => incr_status c o.(status)) acc.2 ul.2))
        (0, statusCounts0) orders.

(** The routes that write the store. *)
Inductive op :=
| Create (userId_ : option string) (items_ : option (list req_item))
    (shippingAddress_ paymentMethod_ : option string) (uuid : nat -> string) (now : Z)
| UpdateStatus (orderId : string) (status_ : option string) (now : Z)
| Cancel (orderId : string) (reason : option string) (now : Z)
| ListUser (userId : string).

Definition step (orders : store) (o : op) : store :=
  match o with
  | Create u its a p uuid now => (create_order orders u its a p uuid now).1
  | UpdateStatus i s now => (update_status orders i s now).1
  | Cancel i r now => (cancel_order orders i r now).1
  | ListUser u => (get_user_orders orders u).1
  end.

Definition run (orders : store) (ops : list op) : store := foldl step orders ops.

(** All orders of the store, user by user. *)
Definition all_orders (orders : store) : list order := concat (map snd orders).

End OrderRoutes.

(* ------------------------------------------------------------------ *)
(** ** Product router *)

Module Products.

Open Scope float_scope.

Record product := {
  id : string;
  name : string;
  description : string;
  price : float;
  category : string;
  image : string;
  stock : Z;
  rating : float;
  reviews : Z;
  tags : list string
}.

Inductive response :=
| Ok (data : product)
| Err (status : Z) (msg : string).

(** GET /:id over the in-memory [products] array. *)
Definition get_product (products : list product) (id' : string) : response :=
  match List.find (fun p => bool_decide (p.(id) = id')) products with
  | Some p => Ok p
  | None => Err 404 "Product not found"
  end.

(** GET /categories/list *)
Definition categories (products : list product) : list string :=
  Js.dedup (map category products).

(** GET /featured/list: [filter(p => p.rating >= 4.0 && p.stock > 10)],
    [sort((a, b) => b.rating - a.rating)], [slice(0, 6)]. *)
Definition featured (products : list product) : list product :=
  take 6 (Js.sort (fun y x => 0 <? x.(rating) - y.(rating))
            (List.filter (fun p => (4.0 <=? p.(rating)) && (10 <? p.(stock))%Z) products)).

Close Scope float_scope.

End Products.

(* ------------------------------------------------------------------ *)
(** ** Cart page: the checkout calculator *)

Module CartPage.

Open Scope float_scope.

Record product := {
  name : string;
  price : float
}.

(** A cart line item as the page receives it from the cart API. *)
Record item := {
  id : string;
  productId : string;
  quantity : float
}.

(** Truthiness of a number: [0], [-0] and [NaN] are falsy. *)
Definition num_truthy (x : float) : bool := negb (x =? 0) && (x =? x).

(** [product?.price || 0] *)
Definition price_or_zero (product : option product) : float :=
  match product with
  | Some p => if num_truthy p.(price) then p.(price) else 0
  | None => 0
  end.

(** [calculateSubtotal]; [products] is the page's object of products
    keyed by id. *)
Definition calculateSubtotal (products : gmap string product) (items : list item) : float :=
  foldl (fun total it => total + price_or_zero (products !! it.(productId)) * it.(quantity)) 0 items.

Definition calculateTax products items : float := calculateSubtotal products items * 0.08.

Definition calculateShipping products items : float :=
  let subtotal := calculateSubtotal products items in
  if 50 <? subtotal then 0 else 5.99.

Definition calculateTotal products items : float :=
  calculateSubtotal products items + calculateTax products items + calculateShipping products items.

(** The [items] array [handleCheckout] sends to POST /api/orders. *)
Definition checkout_items (products : gmap string product) (items : list item) : list Order.req_item :=
  map (fun it =>
    {| Order.r_productId := it.(productId);
       Order.r_name := Js.str_or (name <$> products !! it.(productId)) "Unknown Product";
       Order.r_price := price_or_zero (products !! it.(productId));
       Order.r_quantity := it.(quantity) |}) items.



(** The sign of a float is not negative (NaN included). *)
Definition nonneg (x : spec_float) : bool :=
  match x with
  | S754_zero true | S754_infinity true | S754_finite true _ _ => false
  | _ => true
  end.

(** The subtotal as the spec words it, for comparison with
    [calculateSubtotal]: the sum, in cart order, of unit price times
    quantity over the items whose product the lookup resolves. *)
Definition spec_subtotal (products : gmap string product) (items : list item) : float :=
  foldl (fun total it =>
    match products !! it.(productId) with
    | Some p => total + p.(price) * it.(quantity)
    | None => total
    end) 0 items.

Close Scope float_scope.

End CartPage.

(* ------------------------------------------------------------------ *)
(** ** Client-side cart state: [cartReducer] *)

Module CartContext.

(** A line item of the client state. Items of the cart API carry an id;
    the payload [ADD_ITEM] appends, [{productId, quantity}], has none
    ([item.id] is [undefined], written [None]). The reducer reads no
    other field. *)
Record item := {
  id : option string;
  productId : string;
  quantity : Js.value
}.




Definition set_quantity (q : Js.value) (it : item) : item :=
  {| id := it.(id); productId := it.(productId); quantity := q |}.

(** [items.reduce((sum, item) => sum + item.quantity, 0)] *)
Definition sum_quantities (l : list item) : Js.value :=
  foldl (fun sum it => Js.add sum it.(quantity)) (Js.Num 0) l.




End CartContext.

(* ------------------------------------------------------------------ *)
(** ** Concrete inputs used by the examples below *)

Module Examples.

(** An order as POST / stores it, with the given status. *)
Definition sample_order (st : string) : Order.order :=
  {| Order.id := "o1"; Order.userId := "u1"; Order.items := [];
     Order.shippingAddress := "1 Main St"; Order.paymentMethod := "credit_card";
     Order.subtotal := 0%float; Order.tax := 0%float; Order.shipping := 5.99%float;
     Order.total := 5.99%float; Order.status := st; Order.createdAt := 0%Z;
     Order.updatedAt := 0%Z; Order.estimatedDelivery := 0%Z;
     Order.cancellationReason := None |}.

Definition sample_orders (st : string) : Order.store := [("u1", [sample_order st])].

(** The spec's example line item: product "1" at 129.99, quantity 2. *)
Definition example_item : Order.req_item :=
  {| Order.r_productId := "1"; Order.r_name := "Wireless Headphones";
     Order.r_price := 129.99%float; Order.r_quantity := 2%float |}.

Definition example_create : Order.store * Order.response :=
  Order.create_order [] (Some "u1") (Some [example_item]) (Some "1 Main St") None
    (fun n => match n with O => "o1" | S _ => "i1" end) 0%Z.

Definition uuid_ex (n : nat) : string := match n with O => "o1" | S _ => "i1" end.

Definition ex_products : gmap string CartPage.product :=
  {[ "1" := {| CartPage.name := "Wireless Headphones"; CartPage.price := 129.99%float |} ]}.

Definition ex_items : list CartPage.item :=
  [{| CartPage.id := "a"; CartPage.productId := "1"; CartPage.quantity := 2%float |};
   {| CartPage.id := "b"; CartPage.productId := "9"; CartPage.quantity := 1%float |}].

Definition ex_ops : list Cart.op :=
  [Cart.AddItem "u1" (Some "1") (Some 2%Z) "a" 0%Z; Cart.AddItem "u1" (Some "2") None "b" 1%Z].

Definition ex_cart : Cart.cart :=
  {| Cart.items :=
       [{| Cart.id := "a"; Cart.productId := "1"; Cart.quantity := Js.Num 2; Cart.addedAt := 0%Z |};
        {| Cart.id := "b"; Cart.productId := "2"; Cart.quantity := Js.Num 1; Cart.addedAt := 1%Z |}];
     Cart.total := Js.Num 0; Cart.itemCount := Js.Num 3 |}.

Definition ex_item_a : Cart.cart_item :=
  {| Cart.id := "a"; Cart.productId := "1"; Cart.quantity := Js.Num 2; Cart.addedAt := 0%Z |}.

Definition ex_store : Cart.store := {[ "u1" := ex_cart ]}.

(** An order of user "u1" with the given id and creation time. *)
Definition dated_order (i : string) (t : Z) : Order.order :=
  {| Order.id := i; Order.userId := "u1"; Order.items := [];
     Order.shippingAddress := "1 Main St"; Order.paymentMethod := "credit_card";
     Order.subtotal := 0%float; Order.tax := 0%float; Order.shipping := 5.99%float;
     Order.total := 5.99%float; Order.status := "pending"; Order.createdAt := t;
     Order.updatedAt := t; Order.estimatedDelivery := t;
     Order.cancellationReason := None |}.

Definition ex_user_orders : Order.store :=
  [("u1", [dated_order "o1" 0; dated_order "o2" 5; dated_order "o3" 2])].


End Examples.

(* ================================================================== *)
(** * Properties of the cart router *)

Module CartFacts.
Import Cart.

Lemma find_index_Some {A} (p : A -> bool) (l : list A) i :
  find_index p l = Some i -> exists x, l !! i = Some x /\ p x = true.
Proof.
  revert i; induction l as [|x l IH]; intros i H; simpl in H; [discriminate|].
  destruct (p x) eqn:E.
  - injection H as <-. eauto.
  - destruct (find_index p l) as [j|] eqn:Ej; simpl in H; [|discriminate].
    injection H as <-. destruct (IH j eq_refl) as (y & Hy & Py). eauto.
Qed.

Lemma find_index_None {A} (p : A -> bool) (l : list A) :
  find_index p l = None -> Forall (fun x => p x = false) l.
Proof.
  induction l as [|x l IH]; simpl; intros H; [constructor|].
  destruct (p x) eqn:E; [discriminate|].
  destruct (find_index p l); [discriminate|]. constructor; auto.
Qed.

(** One step of the store, split along the handlers' branches. *)
Ltac cart_step :=
  match goal with o : op |- _ => destruct o end; simpl;
  unfold add_item, update_item, remove_item, clear_cart;
  repeat (case_match; simpl;
    try match goal with H : (true || _) = false |- _ => discriminate H end).

Ltac store_goal :=
  first
  [ assumption
  | apply map_Forall_delete; assumption
  | apply map_Forall_insert_2; [|assumption] ].

Lemma cart_in_store (P : cart -> Prop) (s : store) u :
  map_Forall (fun _ c => P c) s -> P empty_cart -> P (default empty_cart (s !! u)).
Proof.
  intros Hs He. destruct (s !! u) eqn:E; simpl; [|done].
  exact (map_Forall_lookup_1 _ _ _ _ Hs E).
Qed.

Lemma run_preserves (P : cart -> Prop) :
  (forall s o, map_Forall (fun _ c => P c) s -> map_Forall (fun _ c => P c) (step s o).1) ->
  forall ops s, map_Forall (fun _ c => P c) s -> map_Forall (fun _ c => P c) (run s ops).
Proof.
  intros Hstep ops. induction ops as [|o ops IH]; intros s Hs; simpl; [done|].
  apply IH, Hstep, Hs.
Qed.

Lemma get_cart_inv (P : cart -> Prop) (s : store) u :
  map_Forall (fun _ c => P c) s -> P empty_cart ->
  exists c, get_cart s u = Ok c /\ P c.
Proof. intros Hs He. eexists; split; [reflexivity|]. by apply cart_in_store. Qed.


Lemma step_count_total (s : store) (o : op) :
  map_Forall (fun _ c => count_total_ok c) s ->
  map_Forall (fun _ c => count_total_ok c) (step s o).1.
Proof.
  intros Hs. cart_step; store_goal; split; try reflexivity; simpl.
  all: try (apply (cart_in_store (fun c => total c = Js.Num 0));
            [eapply map_Forall_impl; [exact Hs|]; intros ?? []; done | reflexivity]).
  all: match goal with E : _ !! _ = Some ?c |- _ =>
         exact (proj2 (map_Forall_lookup_1 _ _ _ _ Hs E)) end.
Qed.

Lemma run_count_total ops : map_Forall (fun _ c => count_total_ok c) (run ∅ ops).
Proof. apply run_preserves; [apply step_count_total | apply map_Forall_empty]. Qed.

(** Line items keep their productId when only their quantity changes. *)
Lemma productIds_alter (f : cart_item -> cart_item) n (l : list cart_item) :
  (forall x, productId (f x) = productId x) ->
  productId <$> alter f n l = productId <$> l.
Proof.
  intros Hf. revert n; induction l as [|x l IH]; intros [|n]; simpl; f_equal; [apply Hf|apply IH].
Qed.

Lemma step_nodup (s : store) (o : op) :
  map_Forall (fun _ c => NoDup (productId <$> items c)) s ->
  map_Forall (fun _ c => NoDup (productId <$> items c)) (step s o).1.
Proof.
  intros Hs.
  assert (H0 : forall u, NoDup (productId <$> items (default empty_cart (s !! u)))).
  { intros u. apply (cart_in_store (fun c => NoDup (productId <$> items c))); [done|constructor]. }
  cart_step; store_goal; simpl.
  all: try (rewrite productIds_alter by reflexivity).
  all: try (rewrite <- delete_take_drop, list_fmap_delete;
            eapply sublist_NoDup; [|apply sublist_delete]).
  all: try apply H0.
  all: try (match goal with E : _ !! _ = Some ?c |- _ =>
              exact (map_Forall_lookup_1 _ _ _ _ Hs E) end).
  rewrite fmap_app. apply NoDup_app. split; [apply H0|]. split; [|simpl; apply NoDup_singleton].
  intros x Hx Hin. apply list_elem_of_singleton in Hin as ->.
  match goal with H : find_index _ _ = None |- _ => apply find_index_None in H end.
  apply list_elem_of_fmap in Hx as (it & Hit & Hin').
  match goal with H : Forall _ _ |- _ => rewrite Forall_forall in H; apply (H it) in Hin' end.
  rewrite bool_decide_eq_false in Hin'. simpl in Hit. congruence.
Qed.


Lemma Forall_alter_item (P : cart_item -> Prop) (f : cart_item -> cart_item) n (l : list cart_item) :
  Forall P l -> (forall x, P x -> P (f x)) -> Forall P (alter f n l).
Proof.
  intros Hl Hf. revert n; induction Hl as [|x l Hx Hl IH]; intros [|n]; simpl;
    try constructor; auto; apply IH.
Qed.

Lemma step_qty (s : store) (o : op) :
  map_Forall (fun _ c => qty_inv c) s -> map_Forall (fun _ c => qty_inv c) (step s o).1.
Proof.
  intros Hs.
  assert (H0 : forall u, Forall (fun it => qty_ok (quantity it) = true) (items (default empty_cart (s !! u)))).
  { intros u. apply (cart_in_store (fun c => Forall (fun it => qty_ok (quantity it) = true) (items c)));
      [eapply map_Forall_impl; [exact Hs|]; intros ?? []; done | constructor]. }
  assert (HS : forall u c, s !! u = Some c -> Forall (fun it => qty_ok (quantity it) = true) (items c)).
  { intros u c E. exact (proj1 (map_Forall_lookup_1 _ _ _ _ Hs E)). }
  cart_step; store_goal; (split; [simpl|reflexivity]).
  all: repeat match goal with H : (_ || _) = false |- _ => apply orb_false_iff in H as [_ H] end.
  all: try (eapply Forall_alter_item; [first [apply H0 | eapply HS; eassumption] |]; intros x Hx;
            simpl in *; destruct (quantity x); simpl in *; auto;
            apply Z.ltb_ge in H; apply Z.leb_le in Hx; apply Z.leb_le; lia).
  all: try (rewrite <- delete_take_drop; apply Forall_delete; eapply HS; eassumption).
  all: try (eapply Forall_alter_item; [eapply HS; eassumption|]; intros x _; simpl;
            match goal with H : Js.lt _ _ = false |- _ => simpl in H; apply Z.ltb_ge in H end;
            apply Z.leb_le; lia).
  apply Forall_app; split; [apply H0|]. constructor; [|constructor]. simpl.
  simpl in *. apply Z.ltb_ge in H. apply Z.leb_le. lia.
Qed.

Lemma sum_from_NaN (l : list cart_item) :
  foldl (fun sum it => Js.add sum (quantity it)) Js.NaN l = Js.NaN.
Proof. induction l; simpl; auto. Qed.

(** A quantity that is not a number turns the sum into [NaN]. *)
Lemma sum_not_number (l : list cart_item) a it :
  it ∈ l -> (forall q, quantity it <> Js.Num q) ->
  foldl (fun sum it => Js.add sum (quantity it)) a l = Js.NaN.
Proof.
  revert a; induction l as [|x l IH]; intros a Hin Hq; [inversion Hin|].
  simpl. apply elem_of_cons in Hin as [<-|Hin].
  - replace (Js.add a (quantity it)) with Js.NaN; [apply sum_from_NaN|].
    destruct a, (quantity it) eqn:E; try reflexivity. exfalso; eapply Hq; eauto.
  - apply IH; auto.
Qed.

(** With every quantity at least 1, the sum is at least the number of
    line items, and above it once a quantity exceeds 1. *)
Lemma sum_bound (l : list cart_item) a b :
  Forall (fun it => qty_ok (quantity it) = true) l ->
  foldl (fun sum it => Js.add sum (quantity it)) (Js.Num a) l = Js.Num b ->
  (a + Z.of_nat (length l) <= b)%Z /\
  ((exists it q, it ∈ l /\ quantity it = Js.Num q /\ (1 < q)%Z) -> (a + Z.of_nat (length l) < b)%Z).
Proof.
  revert a; induction l as [|x l IH]; intros a Hl Hb; simpl in *.
  - injection Hb as ->. split; [lia|]. intros (it & q & Hin & _). inversion Hin.
  - inversion Hl as [|? ? Hx Hl']; subst.
    destruct (quantity x) as [q| |] eqn:Eq; simpl in Hb;
      try (rewrite sum_from_NaN in Hb; discriminate).
    simpl in Hx. apply Z.leb_le in Hx.
    destruct (IH _ Hl' Hb) as [Hle Hlt]. split; [lia|].
    intros (it & q' & Hin & Hq' & H1). apply elem_of_cons in Hin as [->|Hin].
    + rewrite Hq' in Eq. injection Eq as ->. lia.
    + assert (a + q + Z.of_nat (length l) < b)%Z by (apply Hlt; eauto). lia.
Qed.

Lemma find_index_exists {A} (p : A -> bool) (l : list A) x :
  x ∈ l -> p x = true -> exists i y, find_index p l = Some i /\ l !! i = Some y /\ p y = true.
Proof.
  intros Hin Hp. destruct (find_index p l) as [i|] eqn:E.
  - destruct (find_index_Some p l i E) as (y & Hy & Py). eauto.
  - apply find_index_None in E. rewrite Forall_forall in E. rewrite (E x Hin) in Hp. discriminate.
Qed.

End CartFacts.

Module CartSpec.
Import Cart CartFacts.

(** C3: adding a product twice to a user whose cart has no line item
    yields one line item for it, holding the sum of both quantities (and
    the id and time of the first addition); and in every store the cart
    routes reach from the empty one, no cart holds two line items with
    the same productId. *)
Theorem add_twice_merges (s : store) (u pid : string) (q1 q2 : Z) (f1 f2 : string) (t1 t2 : Z) :
  (forall c, s !! u = Some c -> items c = []) ->
  pid <> "" -> (1 <= q1)%Z -> (1 <= q2)%Z ->
  (exists c,
     (add_item (add_item s u (Some pid) (Some q1) f1 t1).1 u (Some pid) (Some q2) f2 t2).1 !! u = Some c /\
     items c = [{| id := f1; productId := pid; quantity := Js.Num (q1 + q2); addedAt := t1 |}]) /\
  (forall (ops : list op) (u' : string) (c : cart),
     run ∅ ops !! u' = Some c -> NoDup (productId <$> items c)).
Proof.
  intros Hempty Hpid Hq1 Hq2. split.
  - assert (Htr : Js.str_truthy pid = true) by (destruct pid; [congruence|reflexivity]).
    assert (E0 : items (default empty_cart (s !! u)) = []).
    { destruct (s !! u) eqn:E; simpl; [apply Hempty; reflexivity | reflexivity]. }
    unfold add_item at 2. simpl. rewrite Htr.
    replace (q1 <? 1)%Z with false by (symmetry; apply Z.ltb_ge; lia). simpl.
    rewrite E0. simpl.
    unfold add_item. simpl. rewrite Htr.
    replace (q2 <? 1)%Z with false by (symmetry; apply Z.ltb_ge; lia). simpl.
    rewrite !lookup_insert_eq. simpl. rewrite bool_decide_eq_true_2 by reflexivity. simpl.
    eexists; split; reflexivity.
  - intros ops u' c Hc.
    assert (Hinv := run_preserves (fun c => NoDup (productId <$> items c)) step_nodup ops ∅
                      (map_Forall_empty _)).
    exact (map_Forall_lookup_1 _ _ _ _ Hinv Hc).
Qed.

(** C4: after any sequence of add, update, remove and clear operations
    from the empty store, the cart the get-cart route returns for any user
    has an itemCount equal to the sum of its line items' quantities
    ([items.reduce((sum, item) => sum + item.quantity, 0)]). *)
Theorem itemCount_is_sum (ops : list op) (u : string) :
  exists c, get_cart (run ∅ ops) u = Ok c /\ itemCount c = sum_quantities (items c).
Proof.
  destruct (get_cart_inv count_total_ok (run ∅ ops) u (run_count_total ops)) as (c & Hc & [H _]);
    [split; reflexivity|].
  eauto.
Qed.

(** C8: after any sequence of cart operations from the empty store, the
    cart the get-cart route returns for any user has total 0. *)
Theorem get_cart_total_zero (ops : list op) (u : string) :
  exists c, get_cart (run ∅ ops) u = Ok c /\ total c = Js.Num 0.
Proof.
  destruct (get_cart_inv count_total_ok (run ∅ ops) u (run_count_total ops)) as (c & Hc & [_ H]);
    [split; reflexivity|].
  eauto.
Qed.

(** C9: in every store reached from the empty one, the summary route
    reports as itemCount the number of line items of the user's cart (the
    later [itemCount] key of the object literal wins); when a line item
    has a quantity above 1, that differs from the cart's stored
    itemCount. *)
Theorem summary_itemCount_is_length (ops : list op) (u : string) (c : cart) :
  get_cart (run ∅ ops) u = Ok c ->
  exists m, summary (run ∅ ops) u = Summary m /\
    m !! "itemCount" = Some (Js.Num (Z.of_nat (length (items c)))) /\
    ((exists it q, it ∈ items c /\ quantity it = Js.Num q /\ (1 < q)%Z) ->
     m !! "itemCount" <> Some (itemCount c)).
Proof.
  intros Hc. unfold get_cart in Hc. injection Hc as Hc.
  assert (Hinv : qty_inv c).
  { rewrite <- Hc. apply cart_in_store.
    - apply run_preserves; [apply step_qty | apply map_Forall_empty].
    - split; [constructor | reflexivity]. }
  unfold summary. rewrite Hc. eexists; split; [reflexivity|].
  unfold Js.object_literal; simpl. rewrite lookup_insert_eq. split; [reflexivity|].
  intros Hbig Heq. injection Heq as Heq. destruct Hinv as [Hq Hsum].
  rewrite Hsum in Heq. unfold sum_quantities in Heq.
  destruct (sum_bound (items c) 0 _ Hq (eq_sym Heq)) as [_ Hlt].
  specialize (Hlt Hbig). lia.
Qed.

(** C10: an update-quantity request without a quantity, for an item of
    an existing cart, passes the [quantity < 1] guard: it succeeds,
    stores the item with an undefined quantity, and the recomputed
    itemCount is NaN. *)
Theorem update_without_quantity (s : store) (u itemId : string) (c : cart) (it : cart_item) :
  s !! u = Some c -> it ∈ items c -> id it = itemId ->
  exists c', update_item s u itemId None = (<[u := c']> s, Ok c') /\
    (exists it', it' ∈ items c' /\ id it' = itemId /\ quantity it' = Js.Undefined) /\
    itemCount c' = Js.NaN.
Proof.
  intros Hs Hin Hid.
  destruct (find_index_exists (fun it => bool_decide (id it = itemId)) (items c) it Hin)
    as (i & y & Hi & Hy & Py); [by apply bool_decide_eq_true_2|].
  apply bool_decide_eq_true_1 in Py.
  unfold update_item. simpl. rewrite Hs, Hi.
  eexists; split; [reflexivity|]. simpl.
  assert (Hy' : alter (set_quantity Js.Undefined) i (items c) !! i = Some (set_quantity Js.Undefined y)).
  { rewrite list_lookup_alter, Hy. case_decide; [reflexivity|congruence]. }
  split.
  - exists (set_quantity Js.Undefined y). split; [eapply list_elem_of_lookup_2; exact Hy'|].
    split; [exact Py | reflexivity].
  - unfold sum_quantities. eapply sum_not_number; [eapply list_elem_of_lookup_2; exact Hy'|].
    intros q; discriminate.
Qed.

End CartSpec.

(* ================================================================== *)
(** * Properties of the order router *)

Module OrderFacts.
Import Order.

Lemma find_index_alter {A} (p : A -> bool) (f : A -> A) i (l : list A) :
  (forall x, p (f x) = p x) -> Cart.find_index p (alter f i l) = Cart.find_index p l.
Proof.
  intros Hf. revert i; induction l as [|x l IH]; intros [|i]; simpl; try reflexivity.
  - rewrite Hf. reflexivity.
  - destruct (p x); [reflexivity|]. f_equal. apply IH.
Qed.

(** After the in-place mutation, the lookup finds the mutated order. *)
Lemma find_modify (f : order -> order) (orders : store) (orderId : string) :
  (forall o, id (f o) = id o) ->
  find_order (modify_order f orders orderId) orderId = f <$> find_order orders orderId.
Proof.
  intros Hf. induction orders as [|[u l] rest IH]; simpl; [reflexivity|].
  destruct (Cart.find_index _ l) as [i|] eqn:E; simpl.
  - rewrite find_index_alter by (intros o; rewrite Hf; reflexivity).
    rewrite E, list_lookup_alter. case_decide; [reflexivity|congruence].
  - rewrite E. exact IH.
Qed.

Lemma set_status_id s now o : id (set_status s now o) = id o.
Proof. reflexivity. Qed.

Lemma cancel_id r now o : id (cancel r now o) = id o.
Proof. reflexivity. Qed.

End OrderFacts.

Module OrderSpec.
Import Order OrderFacts Examples.

Open Scope float_scope.

Lemma float_neq (x y : float) : Prim2SF x <> Prim2SF y -> x <> y.
Proof. congruence. Qed.

Lemma create_order_ok (orders orders' : store) u its addr pm uuid now (o : order) :
  create_order orders u its addr pm uuid now = (orders', Ok 201 o) ->
  let l := default [] its in
  subtotal o = items_total l /\ tax o = items_total l * 0.08 /\
  shipping o = (if 50 <? items_total l then 0 else 5.99) /\
  total o = items_total l + items_total l * 0.08 + (if 50 <? items_total l then 0 else 5.99).
Proof.
  unfold create_order. intros H.
  destruct (_ || _); [discriminate|].
  destruct (bool_decide (default [] its = [])); [discriminate|].
  injection H as _ <-. simpl. repeat split.
Qed.

(** C1, as the code has it: for every order POST / creates, shipping is
    0 when the subtotal exceeds 50 and 5.99 otherwise, tax is the
    unrounded floating-point product subtotal * 0.08, and total is
    subtotal + tax + shipping; the cart page's [calculateShipping],
    [calculateTax] and [calculateTotal] follow the same formulas. The
    spec's example (one item, price 129.99, quantity 2) gives subtotal
    259.98, shipping 0, tax 20.7984 and total 280.77840000000003 (the
    binary64 values JavaScript prints). *)
Theorem order_pricing_unrounded (orders orders' : store) u its addr pm uuid now (o : order) :
  create_order orders u its addr pm uuid now = (orders', Ok 201 o) ->
  (subtotal o = items_total (default [] its) /\
   shipping o = (if 50 <? subtotal o then 0 else 5.99) /\
   tax o = subtotal o * 0.08 /\
   total o = subtotal o + tax o + shipping o) /\
  (forall products items,
     CartPage.calculateShipping products items =
       (if 50 <? CartPage.calculateSubtotal products items then 0 else 5.99) /\
     CartPage.calculateTax products items = CartPage.calculateSubtotal products items * 0.08 /\
     CartPage.calculateTotal products items =
       CartPage.calculateSubtotal products items + CartPage.calculateTax products items
       + CartPage.calculateShipping products items) /\
  (exists o1, example_create.2 = Ok 201 o1 /\
     subtotal o1 = 259.98 /\ shipping o1 = 0 /\ tax o1 = 20.7984 /\ total o1 = 280.77840000000003).
Proof.
  intros H. split; [|split].
  - destruct (create_order_ok _ _ _ _ _ _ _ _ _ H) as (Hs & Ht & Hsh & Htot).
    rewrite Ht, Hsh, Htot, Hs. repeat split.
  - intros products items. repeat split.
  - eexists. split; [reflexivity|]. vm_compute. repeat split.
Qed.

(** C1, the example as the spec states it fails: the created order's tax
    is not 20.80 and its total is not 280.78, since nothing rounds them. *)
Lemma example_tax_not_rounded :
  exists o1, example_create.2 = Ok 201 o1 /\ tax o1 <> 20.80 /\ total o1 <> 280.78.
Proof.
  eexists. split; [reflexivity|].
  split; apply float_neq; vm_compute; congruence.
Qed.

Lemma valid_status_truthy (s : string) : s ∈ validStatuses -> Js.str_truthy s = true.
Proof.
  unfold validStatuses. intros H.
  repeat (apply elem_of_cons in H as [->|H]; [reflexivity|]).
  apply elem_of_nil in H as [].
Qed.

Lemma cancel_refused (orders : store) orderId reason now (o : order) :
  find_order orders orderId = Some o -> status o ∈ ["shipped"; "delivered"] ->
  cancel_order orders orderId reason now =
    (orders, Err 400 "Cannot cancel order that has already been shipped or delivered").
Proof.
  intros Hf Hs. unfold cancel_order. rewrite Hf, bool_decide_eq_true_2 by exact Hs. reflexivity.
Qed.

(** C2, as the code has it: the status route checks no transition. For
    every existing order and every enum value, it succeeds and the stored
    order takes that status, whatever its current one (backward moves and
    cancelled after shipped or delivered included); only the cancel route
    refuses orders that are shipped or delivered. *)
Theorem status_update_unchecked (orders : store) orderId (s : string) now (o : order) :
  find_order orders orderId = Some o -> s ∈ validStatuses ->
  (exists o', update_status orders orderId (Some s) now =
                (modify_order (set_status s now) orders orderId, Ok 200 o') /\
              find_order (update_status orders orderId (Some s) now).1 orderId = Some o' /\
              status o' = s) /\
  (forall reason now', status o ∈ ["shipped"; "delivered"] ->
     exists msg, cancel_order orders orderId reason now' = (orders, Err 400 msg)).
Proof.
  intros Hf Hs. split.
  - unfold update_status. simpl. rewrite valid_status_truthy by exact Hs. simpl.
    rewrite bool_decide_eq_true_2 by exact Hs. simpl. rewrite Hf.
    eexists. split; [reflexivity|]. simpl.
    rewrite find_modify by apply set_status_id. rewrite Hf. split; reflexivity.
  - intros reason now' Hst. eexists. eapply cancel_refused; eassumption.
Qed.

(** C2, as stated, fails: a delivered order moves back to pending. *)
Lemma delivered_back_to_pending :
  exists o o', find_order (sample_orders "delivered") "o1" = Some o /\ status o = "delivered" /\
    find_order (update_status (sample_orders "delivered") "o1" (Some "pending") 1%Z).1 "o1" = Some o' /\
    status o' = "pending".
Proof. do 2 eexists. repeat split; reflexivity. Qed.

(** C6, as the code has it: cancelling an existing order fails with 400
    when it is shipped or delivered; otherwise it succeeds, the stored
    order becomes cancelled, and its cancellationReason is the given
    reason when that is a non-empty string, "Cancelled by user" when no
    reason or an empty one is given ([reason || 'Cancelled by user']). *)
Theorem cancel_spec (orders : store) orderId (reason : option string) now (o : order) :
  find_order orders orderId = Some o ->
  (status o ∈ ["shipped"; "delivered"] ->
     exists msg, cancel_order orders orderId reason now = (orders, Err 400 msg)) /\
  (status o ∉ ["shipped"; "delivered"] ->
     exists o', (cancel_order orders orderId reason now).2 = Ok 200 o' /\
       find_order (cancel_order orders orderId reason now).1 orderId = Some o' /\
       status o' = "cancelled" /\
       cancellationReason o' =
         Some (match reason with
               | Some r => if bool_decide (r = "") then "Cancelled by user" else r
               | None => "Cancelled by user"
               end)).
Proof.
  intros Hf. split.
  - intros Hs. eexists. eapply cancel_refused; eassumption.
  - intros Hs. unfold cancel_order. rewrite Hf, bool_decide_eq_false_2 by exact Hs. simpl.
    eexists. split; [reflexivity|].
    rewrite find_modify by apply cancel_id. rewrite Hf. simpl.
    split; [reflexivity|]. split; [reflexivity|].
    destruct reason as [r|]; [|reflexivity]. simpl.
    destruct r; reflexivity.
Qed.

(** C6, as stated, fails: an empty reason is given but not recorded. *)
Lemma empty_reason_replaced :
  exists o', (cancel_order (sample_orders "pending") "o1" (Some "") 1%Z).2 = Ok 200 o' /\
    cancellationReason o' = Some "Cancelled by user" /\ cancellationReason o' <> Some "".
Proof. eexists. split; [reflexivity|]. split; [reflexivity|]. discriminate. Qed.

(** C7: a status that is not one of the enum values is rejected with a
    400 validation error before any order is looked up, and the store is
    returned unchanged. *)
Theorem invalid_status_rejected (orders : store) orderId (s : string) now :
  s ∉ validStatuses ->
  exists msg, update_status orders orderId (Some s) now = (orders, Err 400 msg).
Proof.
  intros Hs. unfold update_status. simpl.
  destruct (Js.str_truthy s); simpl; [|eauto].
  rewrite bool_decide_eq_false_2 by exact Hs. simpl. eauto.
Qed.

Close Scope float_scope.

End OrderSpec.

(* ================================================================== *)
(** * Properties of the checkout calculator *)

Module CheckoutSpec.
Import CartPage.

Open Scope float_scope.


Lemma round_aux_nonneg m e l : nonneg (binary_round_aux prec emax false m e l) = true.
Proof.
  unfold binary_round_aux.
  destruct (shr_fexp prec emax m e l) as [mrs' e'].
  destruct (shr_fexp prec emax _ e' loc_Exact) as [mrs'' e''].
  destruct (shr_m mrs''); try destruct (Z.leb _ _); reflexivity.
Qed.

Lemma round_nonneg m e : nonneg (binary_round prec emax false m e) = true.
Proof. unfold binary_round. destruct (shl_align _ _ _). apply round_aux_nonneg. Qed.

Lemma add_nonneg x y : nonneg x = true -> nonneg y = true -> nonneg (SF64add x y) = true.
Proof.
  unfold SF64add.
  destruct x as [[]|[]| |[] mx ex]; destruct y as [[]|[]| |[] my ey]; simpl;
    try reflexivity; try discriminate.
  intros _ _. apply round_nonneg.
Qed.

Lemma mul_nonneg x y : nonneg x = true -> nonneg y = true -> nonneg (SF64mul x y) = true.
Proof.
  unfold SF64mul.
  destruct x as [[]|[]| |[] mx ex]; destruct y as [[]|[]| |[] my ey]; simpl;
    try reflexivity; try discriminate.
  intros _ _. apply round_aux_nonneg.
Qed.

(** Adding +0 changes nothing but -0. *)
Lemma add_zero_r x : nonneg x = true -> SF64add x (S754_zero false) = x.
Proof. unfold SF64add. destruct x as [[]|[]| |[] mx ex]; simpl; try reflexivity; discriminate. Qed.

Lemma prim2sf_inj x y : Prim2SF x = Prim2SF y -> x = y.
Proof. intros H. rewrite <- (SF2Prim_Prim2SF x), <- (SF2Prim_Prim2SF y), H. reflexivity. Qed.

Lemma pos_shape x :
  (0 <? x) = true -> (exists m e, Prim2SF x = S754_finite false m e) \/ Prim2SF x = S754_infinity false.
Proof.
  rewrite ltb_spec. change (Prim2SF 0) with (S754_zero false).
  destruct (Prim2SF x) as [[]|[]| |[] m e]; simpl; try discriminate; eauto.
Qed.

Lemma pos_nonneg x : (0 <? x) = true -> nonneg (Prim2SF x) = true.
Proof. intros H. destruct (pos_shape x H) as [(m & e & ->)| ->]; reflexivity. Qed.

Lemma pos_finite_shape x :
  (0 <? x) = true -> (x <? infinity) = true -> exists m e, Prim2SF x = S754_finite false m e.
Proof.
  intros H1 H2. destruct (pos_shape x H1) as [Hf|Hi]; [exact Hf|].
  rewrite ltb_spec, Hi in H2. change (Prim2SF infinity) with (S754_infinity false) in H2.
  discriminate.
Qed.

(** A positive price is truthy, so [product?.price || 0] is the price. *)
Lemma pos_truthy x : (0 <? x) = true -> num_truthy x = true.
Proof.
  intros H. unfold num_truthy. rewrite !eqb_spec.
  change (Prim2SF 0) with (S754_zero false).
  destruct (pos_shape x H) as [(m & e & ->)| ->]; [|reflexivity].
  unfold SFeqb, SFcompare. rewrite Z.compare_refl, Pos.compare_cont_refl. reflexivity.
Qed.

(** An unresolved product adds [0 * quantity], which is +0 for a
    positive finite quantity and leaves a non-negative sum as it is. *)
Lemma add_zero_times (acc q : float) :
  nonneg (Prim2SF acc) = true -> (0 <? q) = true -> (q <? infinity) = true ->
  acc + 0 * q = acc.
Proof.
  intros Ha H1 H2. destruct (pos_finite_shape q H1 H2) as (m & e & Hq).
  apply prim2sf_inj. rewrite add_spec, mul_spec, Hq.
  change (Prim2SF 0) with (S754_zero false).
  change (SF64mul (S754_zero false) (S754_finite false m e)) with (S754_zero false).
  apply add_zero_r, Ha.
Qed.

Lemma subtotal_fold (products : gmap string product) (items : list item) (acc : float) :
  (forall pid p, products !! pid = Some p -> (0 <? price p) = true) ->
  (forall it, it ∈ items -> (0 <? quantity it) = true /\ (quantity it <? infinity) = true) ->
  nonneg (Prim2SF acc) = true ->
  foldl (fun total it => total + price_or_zero (products !! it.(productId)) * it.(quantity)) acc items =
  foldl (fun total it =>
    match products !! it.(productId) with
    | Some p => total + p.(price) * it.(quantity)
    | None => total
    end) acc items.
Proof.
  intros Hp. revert acc; induction items as [|it items IH]; intros acc Hq Ha; simpl; [reflexivity|].
  destruct (Hq it (proj2 (elem_of_cons _ _ _) (or_introl eq_refl))) as [Hq1 Hq2].
  assert (Hq' : forall x, x ∈ items -> (0 <? quantity x) = true /\ (quantity x <? infinity) = true)
    by (intros x Hx; apply Hq, elem_of_cons; right; exact Hx).
  destruct (products !! productId it) as [p|] eqn:E; simpl.
  - pose proof (Hp _ _ E) as Hpp. rewrite (pos_truthy _ Hpp).
    apply IH; [exact Hq'|]. rewrite add_spec, mul_spec.
    apply add_nonneg; [exact Ha|]. apply mul_nonneg; apply pos_nonneg; assumption.
  - rewrite (add_zero_times acc (quantity it) Ha Hq1 Hq2). apply IH; assumption.
Qed.

(** C5: for a price lookup whose prices are positive and cart items whose
    quantities are positive finite numbers (the data model's prices and
    quantities of at least 1), [calculateSubtotal] equals the sum of unit
    price times quantity over the items whose product resolves, items
    with an unresolved product adding nothing; and the checkout does not
    fail on them: the order items [handleCheckout] builds (price 0 for an
    unresolved product) are accepted by POST /. *)
Theorem subtotal_over_resolvable (products : gmap string product) (items : list item) :
  (forall pid p, products !! pid = Some p -> (0 <? price p) = true) ->
  (forall it, it ∈ items -> (0 <? quantity it) = true /\ (quantity it <? infinity) = true) ->
  calculateSubtotal products items = spec_subtotal products items /\
  (forall orders u addr pm uuid now, items <> [] -> u <> "" -> addr <> "" ->
     exists orders' o,
       Order.create_order orders (Some u) (Some (checkout_items products items)) (Some addr) pm uuid now
       = (orders', Order.Ok 201 o)).
Proof.
  intros Hp Hq. split.
  - apply subtotal_fold; [exact Hp | exact Hq | reflexivity].
  - intros orders u addr pm uuid now Hne Hu Ha.
    unfold Order.create_order. simpl.
    replace (Js.str_truthy u) with true by (destruct u; [congruence | reflexivity]).
    replace (Js.str_truthy addr) with true by (destruct addr; [congruence | reflexivity]).
    simpl. rewrite bool_decide_eq_false_2.
    + do 2 eexists. reflexivity.
    + unfold checkout_items. destruct items; [congruence | discriminate].
Qed.

Close Scope float_scope.

End CheckoutSpec.

(* ================================================================== *)
(** * The theorems at concrete inputs *)

Module Witnesses.
Import Examples.

Lemma order_pricing_unrounded_witness :
  exists os' o, Order.create_order [] (Some "u1") (Some [example_item]) (Some "1 Main St") None uuid_ex 0%Z
                = (os', Order.Ok 201 o) /\
  ((Order.subtotal o = Order.items_total [example_item] /\
    Order.shipping o = (if (50 <? Order.subtotal o)%float then 0%float else 5.99%float) /\
    Order.tax o = (Order.subtotal o * 0.08)%float /\
    Order.total o = (Order.subtotal o + Order.tax o + Order.shipping o)%float) /\
   (forall products items,
     CartPage.calculateShipping products items =
       (if (50 <? CartPage.calculateSubtotal products items)%float then 0%float else 5.99%float) /\
     CartPage.calculateTax products items = (CartPage.calculateSubtotal products items * 0.08)%float /\
     CartPage.calculateTotal products items =
       (CartPage.calculateSubtotal products items + CartPage.calculateTax products items
        + CartPage.calculateShipping products items)%float) /\
   (exists o1, example_create.2 = Order.Ok 201 o1 /\
     Order.subtotal o1 = 259.98%float /\ Order.shipping o1 = 0%float /\
     Order.tax o1 = 20.7984%float /\ Order.total o1 = 280.77840000000003%float)).
Proof.
  do 2 eexists. split; [reflexivity|].
  eapply (OrderSpec.order_pricing_unrounded [] _ (Some "u1") (Some [example_item]) (Some "1 Main St") None uuid_ex 0%Z).
  reflexivity.
Defined.

Lemma status_update_unchecked_witness :
  Order.find_order (sample_orders "delivered") "o1" = Some (sample_order "delivered") /\
  "pending" ∈ Order.validStatuses /\
  ((exists o', Order.update_status (sample_orders "delivered") "o1" (Some "pending") 1%Z =
                 (Order.modify_order (Order.set_status "pending" 1%Z) (sample_orders "delivered") "o1",
                  Order.Ok 200 o') /\
               Order.find_order (Order.update_status (sample_orders "delivered") "o1" (Some "pending") 1%Z).1 "o1"
                 = Some o' /\
               Order.status o' = "pending") /\
   (forall reason now', Order.status (sample_order "delivered") ∈ ["shipped"; "delivered"] ->
      exists msg, Order.cancel_order (sample_orders "delivered") "o1" reason now' =
                    (sample_orders "delivered", Order.Err 400 msg))).
Proof.
  assert (H1 : Order.find_order (sample_orders "delivered") "o1" = Some (sample_order "delivered"))
    by reflexivity.
  assert (H2 : "pending" ∈ Order.validStatuses) by constructor.
  split; [exact H1|]. split; [exact H2|].
  exact (OrderSpec.status_update_unchecked _ _ _ 1%Z _ H1 H2).
Defined.

Lemma add_twice_merges_witness :
  (forall c, (∅ : Cart.store) !! "u1" = Some c -> Cart.items c = []) /\ "1" <> "" /\
  (1 <= 2)%Z /\ (1 <= 3)%Z /\
  ((exists c,
     (Cart.add_item (Cart.add_item ∅ "u1" (Some "1") (Some 2%Z) "a" 0%Z).1 "u1" (Some "1") (Some 3%Z) "b" 1%Z).1
       !! "u1" = Some c /\
     Cart.items c = [{| Cart.id := "a"; Cart.productId := "1"; Cart.quantity := Js.Num (2 + 3);
                        Cart.addedAt := 0%Z |}]) /\
   (forall (ops : list Cart.op) (u' : string) (c : Cart.cart),
      Cart.run ∅ ops !! u' = Some c -> NoDup (Cart.productId <$> Cart.items c))).
Proof.
  assert (H1 : forall c, (∅ : Cart.store) !! "u1" = Some c -> Cart.items c = [])
    by (intros c H; rewrite lookup_empty in H; discriminate).
  assert (H2 : "1" <> "") by discriminate.
  assert (H3 : (1 <= 2)%Z) by lia.
  assert (H4 : (1 <= 3)%Z) by lia.
  split; [exact H1|]. split; [exact H2|]. split; [exact H3|]. split; [exact H4|].
  exact (CartSpec.add_twice_merges ∅ "u1" "1" 2 3 "a" "b" 0 1 H1 H2 H3 H4).
Defined.

Lemma subtotal_over_resolvable_witness :
  (forall pid p, ex_products !! pid = Some p -> (0 <? CartPage.price p)%float = true) /\
  (forall it, it ∈ ex_items ->
     (0 <? CartPage.quantity it)%float = true /\ (CartPage.quantity it <? infinity)%float = true) /\
  (CartPage.calculateSubtotal ex_products ex_items = CartPage.spec_subtotal ex_products ex_items /\
   (forall orders u addr pm uuid now, ex_items <> [] -> u <> "" -> addr <> "" ->
      exists orders' o,
        Order.create_order orders (Some u) (Some (CartPage.checkout_items ex_products ex_items))
          (Some addr) pm uuid now = (orders', Order.Ok 201 o))).
Proof.
  assert (H1 : forall pid p, ex_products !! pid = Some p -> (0 <? CartPage.price p)%float = true).
  { intros pid p H. unfold ex_products in H. apply lookup_singleton_Some in H as [_ <-]. reflexivity. }
  assert (H2 : forall it, it ∈ ex_items ->
     (0 <? CartPage.quantity it)%float = true /\ (CartPage.quantity it <? infinity)%float = true).
  { intros it Hit. unfold ex_items in Hit.
    repeat (apply elem_of_cons in Hit as [->|Hit]; [split; reflexivity|]).
    apply elem_of_nil in Hit as []. }
  split; [exact H1|]. split; [exact H2|].
  exact (CheckoutSpec.subtotal_over_resolvable ex_products ex_items H1 H2).
Defined.

Lemma cancel_spec_witness :
  Order.find_order (sample_orders "pending") "o1" = Some (sample_order "pending") /\
  ((Order.status (sample_order "pending") ∈ ["shipped"; "delivered"] ->
     exists msg, Order.cancel_order (sample_orders "pending") "o1" (Some "") 1%Z =
                   (sample_orders "pending", Order.Err 400 msg)) /\
   (Order.status (sample_order "pending") ∉ ["shipped"; "delivered"] ->
     exists o', (Order.cancel_order (sample_orders "pending") "o1" (Some "") 1%Z).2 = Order.Ok 200 o' /\
       Order.find_order (Order.cancel_order (sample_orders "pending") "o1" (Some "") 1%Z).1 "o1" = Some o' /\
       Order.status o' = "cancelled" /\
       Order.cancellationReason o' =
         Some (match Some "" with
               | Some r => if bool_decide (r = "") then "Cancelled by user" else r
               | None => "Cancelled by user"
               end))).
Proof.
  assert (H1 : Order.find_order (sample_orders "pending") "o1" = Some (sample_order "pending"))
    by reflexivity.
  split; [exact H1|].
  exact (OrderSpec.cancel_spec _ _ (Some "") 1%Z _ H1).
Defined.

Lemma invalid_status_rejected_witness :
  ("lost" ∉ Order.validStatuses) /\
  exists msg, Order.update_status (sample_orders "pending") "o1" (Some "lost") 1%Z =
                (sample_orders "pending", Order.Err 400 msg).
Proof.
  assert (H : "lost" ∉ Order.validStatuses).
  { apply (bool_decide_eq_false_1 _). vm_compute. reflexivity. }
  split; [exact H|].
  exact (OrderSpec.invalid_status_rejected _ "o1" "lost" 1%Z H).
Defined.

Lemma summary_itemCount_is_length_witness :
  Cart.get_cart (Cart.run ∅ ex_ops) "u1" = Cart.Ok ex_cart /\
  exists m, Cart.summary (Cart.run ∅ ex_ops) "u1" = Cart.Summary m /\
    m !! "itemCount" = Some (Js.Num (Z.of_nat (length (Cart.items ex_cart)))) /\
    ((exists it q, it ∈ Cart.items ex_cart /\ Cart.quantity it = Js.Num q /\ (1 < q)%Z) ->
     m !! "itemCount" <> Some (Cart.itemCount ex_cart)).
Proof.
  assert (H : Cart.get_cart (Cart.run ∅ ex_ops) "u1" = Cart.Ok ex_cart) by reflexivity.
  split; [exact H|].
  exact (CartSpec.summary_itemCount_is_length ex_ops "u1" ex_cart H).
Defined.

Lemma update_without_quantity_witness :
  Cart.run ∅ ex_ops !! "u1" = Some ex_cart /\ ex_item_a ∈ Cart.items ex_cart /\ Cart.id ex_item_a = "a" /\
  exists c', Cart.update_item (Cart.run ∅ ex_ops) "u1" "a" None = (<["u1" := c']> (Cart.run ∅ ex_ops), Cart.Ok c') /\
    (exists it', it' ∈ Cart.items c' /\ Cart.id it' = "a" /\ Cart.quantity it' = Js.Undefined) /\
    Cart.itemCount c' = Js.NaN.
Proof.
  assert (H1 : Cart.run ∅ ex_ops !! "u1" = Some ex_cart) by reflexivity.
  assert (H2 : ex_item_a ∈ Cart.items ex_cart) by constructor.
  assert (H3 : Cart.id ex_item_a = "a") by reflexivity.
  split; [exact H1|]. split; [exact H2|]. split; [exact H3|].
  exact (CartSpec.update_without_quantity _ "u1" "a" ex_cart ex_item_a H1 H2 H3).
Defined.

End Witnesses.

(* ================================================================== *)
(** * Further properties of the cart router *)

Module CartRouterFacts.
Import Cart CartFacts.

Lemma find_index_Forall_None {A} (p : A -> bool) (l : list A) :
  Forall (fun x => p x = false) l -> find_index p l = None.
Proof. induction 1 as [|x l Hx _ IH]; simpl; [reflexivity|]. rewrite Hx, IH. reflexivity. Qed.

Lemma find_index_first {A} (p : A -> bool) (l : list A) i :
  find_index p l = Some i -> forall j x, (j < i)%nat -> l !! j = Some x -> p x = false.
Proof.
  revert i; induction l as [|y l IH]; intros i H j x Hj Hx; simpl in H; [discriminate|].
  destruct (p y) eqn:E.
  - injection H as <-. lia.
  - destruct (find_index p l) as [k|] eqn:Ek; simpl in H; [|discriminate].
    injection H as <-. destruct j as [|j]; simpl in Hx; [congruence|].
    apply (IH k eq_refl j); [lia|exact Hx].
Qed.

Lemma lt_ge_1 (z : Z) : (1 <= z)%Z -> Js.lt (Js.Num z) (Js.Num 1) = false.
Proof. intros H. simpl. apply Z.ltb_ge. exact H. Qed.

(** Removing or updating an item the user's cart does not hold (or for a
    user with no cart) answers 404 and leaves the store as it was. *)
Theorem missing_item_404 (s : store) (u i : string) :
  (forall c, s !! u = Some c -> Forall (fun it => id it <> i) (items c)) ->
  (exists msg, remove_item s u i = (s, Err 404 msg)) /\
  (forall z, (1 <= z)%Z -> exists msg, update_item s u i (Some z) = (s, Err 404 msg)).
Proof.
  intros H.
  assert (Hf : forall c, s !! u = Some c ->
            find_index (fun it => bool_decide (id it = i)) (items c) = None).
  { intros c Hc. apply find_index_Forall_None.
    eapply Forall_impl; [exact (H c Hc)|]. intros x Hx. apply bool_decide_eq_false_2, Hx. }
  split.
  - unfold remove_item. destruct (s !! u) as [c|] eqn:E; [rewrite (Hf c eq_refl)|]; eauto.
  - intros z Hz. unfold update_item. rewrite lt_ge_1 by exact Hz.
    destruct (s !! u) as [c|] eqn:E; [rewrite (Hf c eq_refl)|]; eauto.
Qed.

(** POST /:userId/items with no productId, an empty one, or a quantity
    below 1 answers 400 and leaves the store as it was. *)
Theorem add_invalid_400 (s : store) u p q f t :
  (p = None \/ p = Some "" \/ exists z, q = Some z /\ (z < 1)%Z) ->
  exists msg, add_item s u p q f t = (s, Err 400 msg).
Proof.
  intros [->|[->|(z & -> & Hz)]]; unfold add_item; simpl; eauto.
  rewrite (proj2 (Z.ltb_lt z 1) Hz), orb_true_r. eauto.
Qed.

(** Carts are per user: a sequence of cart operations none of which is
    on user [u'] leaves the cart of [u'] as it was. *)
Theorem run_other_users (s : store) (ops : list op) (u' : string) :
  Forall (fun o => op_user o <> u') ops -> run s ops !! u' = s !! u'.
Proof.
  revert s; induction ops as [|o ops IH]; intros s H; simpl; [reflexivity|].
  inversion H as [|? ? Ho Hops]; subst. unfold run in IH. rewrite IH by exact Hops.
  destruct o; simpl in Ho; simpl;
    unfold add_item, update_item, remove_item, clear_cart;
    repeat (case_match; simpl); try reflexivity;
    first [rewrite lookup_insert_ne by exact Ho | rewrite lookup_delete_ne by exact Ho];
    reflexivity.
Qed.

(** After DELETE /:userId, the cart and its summary read as an empty
    cart (no items, itemCount 0, total 0), and clearing again changes
    nothing. *)
Theorem clear_then_read (s : store) (u : string) :
  get_cart (clear_cart s u).1 u = Ok empty_cart /\
  (exists m, summary (clear_cart s u).1 u = Summary m /\
             m !! "itemCount" = Some (Js.Num 0) /\ m !! "total" = Some (Js.Num 0)) /\
  (clear_cart (clear_cart s u).1 u).1 = (clear_cart s u).1.
Proof.
  unfold get_cart, summary, clear_cart; simpl. rewrite lookup_delete_eq. simpl.
  split; [reflexivity|]. split.
  - eexists; split; [reflexivity|]. split; reflexivity.
  - apply delete_delete_eq.
Qed.

(** A successful PUT /:userId/items/:itemId changes exactly one item of
    the user's cart, the first one with that id, whose quantity becomes
    the one sent; every other position is unchanged, and itemCount is
    recomputed. *)
Theorem update_changes_one_item (s s' : store) u i z (c' : cart) :
  update_item s u i (Some z) = (s', Ok c') ->
  exists c k it,
    s !! u = Some c /\ s' !! u = Some c' /\
    items c !! k = Some it /\ id it = i /\
    (forall j it', (j < k)%nat -> items c !! j = Some it' -> id it' <> i) /\
    items c' !! k = Some (set_quantity (Js.Num z) it) /\
    (forall j, j <> k -> items c' !! j = items c !! j) /\
    itemCount c' = sum_quantities (items c').
Proof.
  unfold update_item; simpl. destruct (z <? 1)%Z; [discriminate|].
  destruct (s !! u) as [c|] eqn:E; [|discriminate].
  destruct (find_index _ (items c)) as [k|] eqn:F; [|discriminate].
  intros [= <- <-]. destruct (find_index_Some _ _ _ F) as (it & Hit & Hp).
  exists c, k, it. simpl. rewrite lookup_insert_eq.
  split; [reflexivity|]. split; [reflexivity|]. split; [exact Hit|].
  split; [exact (bool_decide_eq_true_1 _ Hp)|]. split.
  - intros j it' Hj Hit'. apply (bool_decide_eq_false_1 (id it' = i)).
    exact (find_index_first _ _ _ F j it' Hj Hit').
  - split; [rewrite list_lookup_alter, Hit; destruct (decide (k = k)); [reflexivity|congruence]|]. split; [|reflexivity].
    intros j Hj. apply list_lookup_alter_ne. congruence.
Qed.

(** A successful DELETE /:userId/items/:itemId removes exactly the first
    item with that id from the user's cart: one item fewer, the others
    in their order, and itemCount recomputed. *)
Theorem remove_deletes_first (s s' : store) u i (c' : cart) :
  remove_item s u i = (s', Ok c') ->
  exists c k it,
    s !! u = Some c /\ s' !! u = Some c' /\
    items c !! k = Some it /\ id it = i /\
    (forall j it', (j < k)%nat -> items c !! j = Some it' -> id it' <> i) /\
    items c' = delete k (items c) /\
    length (items c') = length (items c) - 1 /\
    itemCount c' = sum_quantities (items c').
Proof.
  unfold remove_item. destruct (s !! u) as [c|] eqn:E; [|discriminate].
  destruct (find_index _ (items c)) as [k|] eqn:F; [|discriminate].
  intros [= <- <-]. destruct (find_index_Some _ _ _ F) as (it & Hit & Hp).
  exists c, k, it. simpl. rewrite lookup_insert_eq.
  split; [reflexivity|]. split; [reflexivity|]. split; [exact Hit|].
  split; [exact (bool_decide_eq_true_1 _ Hp)|]. split.
  - intros j it' Hj Hit'. apply (bool_decide_eq_false_1 (id it' = i)).
    exact (find_index_first _ _ _ F j it' Hj Hit').
  - rewrite <- delete_take_drop. split; [reflexivity|]. split; [|reflexivity].
    apply length_delete. rewrite Hit. eauto.
Qed.


End CartRouterFacts.

(* ================================================================== *)
(** * Further properties of the order router *)

Module OrderRouteFacts.
Import Order OrderRoutes CartRouterFacts.

Ltac dec := repeat (case_bool_decide; simpl); try congruence.

Lemma all_orders_cons u l rest : all_orders ((u, l) :: rest) = l ++ all_orders rest.
Proof. reflexivity. Qed.

Lemma find_user_push (os : store) u o :
  find_user (push_order os u o) u = Some (default [] (find_user os u) ++ [o]).
Proof. induction os as [|[u' l] rest IH]; simpl; dec. Qed.

Lemma find_user_push_other (os : store) u u' o :
  u' <> u -> find_user (push_order os u o) u' = find_user os u'.
Proof. intros Hne. induction os as [|[u'' l] rest IH]; simpl; dec. Qed.

Lemma find_index_app_None {A} (p : A -> bool) (l r : list A) :
  Cart.find_index p l = None ->
  Cart.find_index p (l ++ r) = (fun i => length l + i)%nat <$> Cart.find_index p r.
Proof.
  induction l as [|x l IH]; simpl; intros H.
  - destruct (Cart.find_index p r); reflexivity.
  - destruct (p x); [discriminate|].
    destruct (Cart.find_index p l); [discriminate|]. rewrite IH by reflexivity.
    destruct (Cart.find_index p r); reflexivity.
Qed.

Lemma find_order_push (os : store) u o :
  find_order os (id o) = None -> find_order (push_order os u o) (id o) = Some o.
Proof.
  induction os as [|[u' l] rest IH]; simpl; intros H.
  - rewrite bool_decide_eq_true_2 by reflexivity. reflexivity.
  - destruct (Cart.find_index _ l) as [k|] eqn:E.
    + destruct (CartFacts.find_index_Some _ _ _ E) as (x & Hx & _). congruence.
    + case_bool_decide; simpl.
      * rewrite find_index_app_None by exact E. simpl.
        rewrite bool_decide_eq_true_2 by reflexivity. simpl.
        apply list_lookup_middle. lia.
      * rewrite E. exact (IH H).
Qed.

Lemma create_success (os os' : store) u its a p uuid now (o : order) :
  create_order os u its a p uuid now = (os', Ok 201 o) ->
  os' = push_order os (userId o) o /\ id o = uuid O /\ status o = "pending" /\
  createdAt o = now /\ updatedAt o = now /\ estimatedDelivery o = (now + 7 * day_ms)%Z /\
  cancellationReason o = None.
Proof.
  unfold create_order. case_match; [discriminate|]. case_match; [discriminate|].
  intros [= <- <-]. repeat split.
Qed.

(** POST / without a userId, items or shipping address (missing or
    empty), or with an empty items array, answers 400 and stores
    nothing. *)
Theorem create_invalid_400 (os : store) u its a p uuid now :
  (u = None \/ u = Some "" \/ its = None \/ its = Some [] \/ a = None \/ a = Some "") ->
  exists msg, create_order os u its a p uuid now = (os, Err 400 msg).
Proof.
  intros Hc. unfold create_order.
  destruct (_ || _) eqn:Hv; [eauto|].
  apply orb_false_iff in Hv as [Hv Ha]. apply orb_false_iff in Hv as [Hu Hi].
  apply bool_decide_eq_false_1 in Hi.
  destruct Hc as [->|[->|[->|[->|[->| ->]]]]]; simpl in *; try discriminate; try congruence.
  try (rewrite bool_decide_eq_true_2 by reflexivity); eauto.
Qed.

(** A successful POST / stores the new order at the end of its user's
    list and leaves the lists of all other users as they were. The order
    starts "pending", created and updated at the request time, with
    delivery estimated seven days later and no cancellation reason. *)
Theorem create_appends (os os' : store) u its a p uuid now (o : order) :
  create_order os u its a p uuid now = (os', Ok 201 o) ->
  status o = "pending" /\ createdAt o = now /\ updatedAt o = now /\
  estimatedDelivery o = (now + 7 * day_ms)%Z /\ cancellationReason o = None /\
  find_user os' (userId o) = Some (default [] (find_user os (userId o)) ++ [o]) /\
  (forall u', u' <> userId o -> find_user os' u' = find_user os u').
Proof.
  intros H. destruct (create_success _ _ _ _ _ _ _ _ _ H) as (-> & _ & ? & ? & ? & ? & ?).
  repeat split; try assumption.
  - apply find_user_push.
  - intros u' Hne. apply find_user_push_other. exact Hne.
Qed.

(** Creating an order and then reading it back: when the id drawn for
    the order is not already taken, GET /:orderId finds the order POST /
    returned. *)
Theorem create_then_get (os os' : store) u its a p uuid now (o : order) :
  find_order os (uuid O) = None ->
  create_order os u its a p uuid now = (os', Ok 201 o) ->
  get_order os' (id o) = Ok 200 o.
Proof.
  intros Hfree H. destruct (create_success _ _ _ _ _ _ _ _ _ H) as (-> & Hid & _).
  unfold get_order. rewrite find_order_push by (rewrite Hid; exact Hfree). reflexivity.
Qed.

(** ** The in-place sort of GET /user/:userId *)

Section Sorting.
Context {A : Type} (after : A -> A -> bool) (R : A -> A -> Prop).
Hypothesis after_true : forall y x, after y x = true -> R x y.
Hypothesis after_false : forall y x, after y x = false -> R y x.

Lemma insert_perm x (l : list A) : Js.insert_sorted after x l ≡ₚ x :: l.
Proof.
  induction l as [|y l IH]; simpl; [reflexivity|].
  destruct (after y x); [reflexivity|]. rewrite IH. constructor.
Qed.

Lemma sort_perm (l : list A) : Js.sort after l ≡ₚ l.
Proof.
  unfold Js.sort. cut (forall acc, foldl (fun acc x => Js.insert_sorted after x acc) acc l ≡ₚ acc ++ l).
  { intros H. apply H. }
  induction l as [|x l IH]; intros acc; simpl; [by rewrite app_nil_r|].
  rewrite IH, insert_perm. simpl. apply Permutation_middle.
Qed.

Lemma insert_hd y x (l : list A) : R y x -> HdRel R y l -> HdRel R y (Js.insert_sorted after x l).
Proof.
  intros Hyx Hl. destruct l as [|z l]; simpl; [constructor; exact Hyx|].
  destruct (after z x); constructor; [exact Hyx|]. inversion Hl; assumption.
Qed.

Lemma insert_sorted_ok x (l : list A) : Sorted R l -> Sorted R (Js.insert_sorted after x l).
Proof.
  induction 1 as [|y l Hl IH Hhd]; simpl; [repeat constructor|].
  destruct (after y x) eqn:E.
  - constructor; [constructor; assumption|]. constructor. apply after_true, E.
  - constructor; [exact IH|]. apply insert_hd; [apply after_false, E|exact Hhd].
Qed.

Lemma sort_sorted (l : list A) : Sorted R (Js.sort after l).
Proof.
  unfold Js.sort. cut (forall acc, Sorted R acc ->
    Sorted R (foldl (fun acc x => Js.insert_sorted after x acc) acc l)).
  { intros H. apply H. constructor. }
  induction l as [|x l IH]; intros acc Hacc; simpl; [exact Hacc|].
  apply IH, insert_sorted_ok, Hacc.
Qed.

End Sorting.

Lemma find_set_user (os : store) u l l' :
  find_user os u = Some l -> find_user (set_user os u l') u = Some l'.
Proof. induction os as [|[u' l0] rest IH]; simpl; intros H; dec. apply IH, H. Qed.

Lemma find_set_user_other (os : store) u u' l' :
  u' <> u -> find_user (set_user os u l') u' = find_user os u'.
Proof. intros Hne. induction os as [|[u'' l0] rest IH]; simpl; dec. Qed.

(** GET /user/:userId returns the user's orders newest first (by
    creation time), as a rearrangement of the stored list, with their
    number as [total]; the stored list itself is left in that order, and
    no other user's list changes. *)
Theorem user_orders_newest_first (os : store) u (l : list order) :
  find_user os u = Some l ->
  let r := get_user_orders os u in
  r.2.1 ≡ₚ l /\
  Sorted (fun a b => (createdAt b <= createdAt a)%Z) r.2.1 /\
  r.2.2 = length l /\
  find_user r.1 u = Some r.2.1 /\
  (forall u', u' <> u -> find_user r.1 u' = find_user os u').
Proof.
  intros H. unfold get_user_orders. rewrite H. simpl.
  assert (Hy : forall y x, newest_first y x = true -> (createdAt y <= createdAt x)%Z).
  { unfold newest_first. intros y x E. apply Z.ltb_lt in E. lia. }
  assert (Hn : forall y x, newest_first y x = false -> (createdAt x <= createdAt y)%Z).
  { unfold newest_first. intros y x E. apply Z.ltb_ge in E. lia. }
  split; [apply sort_perm|]. split; [apply (sort_sorted _ _ Hy Hn)|].
  split; [apply length_Permutation_proper, sort_perm|].
  split; [eapply find_set_user; exact H|].
  intros u' Hne. apply find_set_user_other, Hne.
Qed.

(** ** Lookups, status updates and the 404 answers *)


(** For an order id that no user's list holds, GET /:orderId, a valid
    PATCH /:orderId/status and PATCH /:orderId/cancel all answer 404, and
    the store is unchanged. *)
Theorem unknown_order_404 (os : store) i s r now :
  find_order os i = None -> s ∈ validStatuses ->
  get_order os i = Err 404 "Order not found" /\
  update_status os i (Some s) now = (os, Err 404 "Order not found") /\
  cancel_order os i r now = (os, Err 404 "Order not found").
Proof.
  intros Hf Hs. unfold get_order, update_status, cancel_order. rewrite Hf.
  simpl. rewrite (OrderSpec.valid_status_truthy s Hs). simpl.
  rewrite bool_decide_eq_true_2 by exact Hs. simpl. repeat split.
Qed.

(** ** Statuses and the statistics *)

Ltac valid_lit := apply (bool_decide_unpack _); vm_compute; exact I.

Lemma Forall_all_app (P : order -> Prop) l rest :
  Forall P (all_orders rest) -> Forall P l -> Forall P (l ++ all_orders rest).
Proof. intros; apply Forall_app; split; assumption. Qed.

Lemma push_Forall (P : order -> Prop) (os : store) u o :
  Forall P (all_orders os) -> P o -> Forall P (all_orders (push_order os u o)).
Proof.
  intros H Ho. induction os as [|[u' l] rest IH]; simpl.
  - repeat constructor. exact Ho.
  - rewrite all_orders_cons in H. apply Forall_app in H as [Hl Hr].
    case_bool_decide; simpl; rewrite ?all_orders_cons; apply Forall_all_app; auto.
    apply Forall_app; split; auto.
Qed.

Lemma modify_Forall (P : order -> Prop) f (os : store) i :
  (forall o, P o -> P (f o)) -> Forall P (all_orders os) -> Forall P (all_orders (modify_order f os i)).
Proof.
  intros Hf H. induction os as [|[u l] rest IH]; simpl; [constructor|].
  rewrite all_orders_cons in H. apply Forall_app in H as [Hl Hr].
  case_match; rewrite all_orders_cons; apply Forall_all_app; auto.
  apply Forall_alter; auto.
Qed.

Lemma set_user_Forall (P : order -> Prop) (os : store) u l l' :
  find_user os u = Some l -> (forall x, x ∈ l' -> x ∈ l) ->
  Forall P (all_orders os) -> Forall P (all_orders (set_user os u l')).
Proof.
  intros Hf Hin H. induction os as [|[u' l0] rest IH]; simpl in *; [constructor|].
  apply Forall_app in H as [Hl Hr].
  case_bool_decide; simpl; rewrite all_orders_cons; apply Forall_all_app; auto.
  injection Hf as ->. apply Forall_forall. intros x Hx.
  rewrite Forall_forall in Hl. apply Hl, Hin, Hx.
Qed.

Lemma step_valid (os : store) (o : op) :
  Forall (fun x => status x ∈ validStatuses) (all_orders os) ->
  Forall (fun x => status x ∈ validStatuses) (all_orders (step os o)).
Proof.
  intros H. destruct o as [u its a p uuid now|i s now|i r now|u]; simpl.
  - unfold create_order. case_match; [exact H|]. case_match; [exact H|].
    simpl. apply push_Forall; [exact H|]. simpl. valid_lit.
  - unfold update_status. case_match; [exact H|]. destruct (negb (bool_decide _)) eqn:Hv; [exact H|].
    apply negb_false_iff, bool_decide_eq_true_1 in Hv.
    case_match; [|exact H]. simpl. apply modify_Forall; [|exact H]. intros; exact Hv.
  - unfold cancel_order. case_match; [|exact H]. case_match; [exact H|].
    simpl. apply modify_Forall; [|exact H]. intros; simpl. valid_lit.
  - unfold get_user_orders. destruct (find_user os u) as [l|] eqn:Hf; [|exact H]. simpl.
    eapply set_user_Forall; [exact Hf| |exact H].
    intros x Hx. rewrite (sort_perm newest_first) in Hx. exact Hx.
Qed.

(** Every order the order routes ever store, from an empty store, has
    one of the six valid statuses. *)
Theorem run_statuses_valid (ops : list op) :
  Forall (fun x => status x ∈ validStatuses) (all_orders (run [] ops)).
Proof.
  unfold run. cut (forall os, Forall (fun x => status x ∈ validStatuses) (all_orders os) ->
    Forall (fun x => status x ∈ validStatuses) (all_orders (foldl step os ops))).
  { intros Hc. apply Hc. constructor. }
  induction ops as [|o ops IH]; intros os H; simpl; [exact H|]. apply IH, step_valid, H.
Qed.

Lemma stats_fold (os : store) n c :
  foldl (fun acc ul => (acc.1 + length ul.2, foldl (fun c o => incr_status c o.(status)) acc.2 ul.2))
        (n, c) os
  = (n + length (all_orders os), foldl (fun c o => incr_status c o.(status)) c (all_orders os))%nat.
Proof.
  revert n c. induction os as [|[u l] rest IH]; intros n c; simpl.
  - f_equal. lia.
  - rewrite IH, all_orders_cons, foldl_app, length_app. f_equal. lia.
Qed.

Lemma incr_fold_num (l : list order) c s k :
  c !! s = Some (Js.Num k) ->
  foldl (fun c o => incr_status c o.(status)) c l !! s
  = Some (Js.Num (k + Z.of_nat (length (filter (fun o => status o = s) l)))).
Proof.
  revert c k. induction l as [|o l IH]; intros c k Hc; simpl.
  - rewrite Hc. f_equal. f_equal. lia.
  - unfold incr_status. rewrite filter_cons. destruct (decide (status o = s)) as [<-|Hne].
    + rewrite (IH _ (k + 1)%Z) by (rewrite lookup_insert_eq, Hc; reflexivity).
      simpl. f_equal. f_equal. lia.
    + rewrite (IH _ k) by (rewrite lookup_insert_ne by exact Hne; exact Hc). reflexivity.
Qed.

Lemma incr_fold_other (l : list order) c s :
  Forall (fun o => status o <> s) l ->
  foldl (fun c o => incr_status c o.(status)) c l !! s = c !! s.
Proof.
  revert c. induction l as [|o l IH]; intros c H; simpl; [reflexivity|].
  inversion H as [|? ? Ho Hl]; subst. rewrite IH by exact Hl.
  unfold incr_status. apply lookup_insert_ne, Ho.
Qed.

Lemma statusCounts0_lookup s :
  statusCounts0 !! s = if bool_decide (s ∈ validStatuses) then Some (Js.Num 0) else None.
Proof.
  unfold statusCounts0, Js.object_literal. simpl. rewrite !lookup_insert.
  destruct (decide (s ∈ validStatuses)) as [Hin|Hnin].
  - repeat (apply elem_of_cons in Hin as [->|Hin]; [reflexivity|]).
    apply elem_of_nil in Hin. contradiction.
  - rewrite bool_decide_eq_false_2 by exact Hnin.
    repeat (rewrite decide_False; [|intros <-; apply Hnin; valid_lit]).
    apply lookup_empty.
Qed.

(** GET /stats/overview on a store whose orders all have valid statuses
    (every store the routes build, by [run_statuses_valid]): totalOrders
    is the number of stored orders, each of the six statuses is counted
    exactly, and no other key appears in statusCounts. *)
Theorem stats_counts_exact (os : store) :
  Forall (fun x => status x ∈ validStatuses) (all_orders os) ->
  (stats_counts os).1 = length (all_orders os) /\
  (forall s, s ∈ validStatuses ->
     (stats_counts os).2 !! s =
       Some (Js.Num (Z.of_nat (length (filter (fun o => status o = s) (all_orders os)))))) /\
  (forall s, s ∉ validStatuses -> (stats_counts os).2 !! s = None).
Proof.
  intros H. unfold stats_counts. rewrite stats_fold. simpl. split; [reflexivity|]. split.
  - intros s Hs. rewrite (incr_fold_num _ _ _ 0%Z); [reflexivity|].
    rewrite statusCounts0_lookup, bool_decide_eq_true_2 by exact Hs. reflexivity.
  - intros s Hs. rewrite incr_fold_other.
    + rewrite statusCounts0_lookup, bool_decide_eq_false_2 by exact Hs. reflexivity.
    + eapply Forall_impl; [exact H|]. simpl. intros x Hx Heq. apply Hs. rewrite <- Heq. exact Hx.
Qed.

End OrderRouteFacts.

(* ================================================================== *)
(** * Properties of the product router *)

Module ProductFacts.
Import Products.

Lemma dedup_spec {A} `{EqDecision A} (l : list A) :
  NoDup (Js.dedup l) /\ forall x, x ∈ Js.dedup l <-> x ∈ l.
Proof.
  unfold Js.dedup.
  cut (forall seen, NoDup seen ->
    NoDup (foldl (fun seen x => if bool_decide (x ∈ seen) then seen else seen ++ [x]) seen l) /\
    forall x, x ∈ foldl (fun seen x => if bool_decide (x ∈ seen) then seen else seen ++ [x]) seen l
              <-> x ∈ seen \/ x ∈ l).
  { intros H. destruct (H [] NoDup_nil_2) as [H1 H2]. split; [exact H1|].
    intros x. rewrite H2, elem_of_nil. tauto. }
  induction l as [|y l IH]; intros seen Hs; simpl.
  - split; [exact Hs|]. intros x. rewrite elem_of_nil. tauto.
  - case_bool_decide as Hy.
    + destruct (IH seen Hs) as [H1 H2]. split; [exact H1|]. intros x.
      rewrite H2, elem_of_cons. split; [tauto|]. intros [Hx|[->|Hx]]; auto.
    + assert (Hs' : NoDup (seen ++ [y])).
      { apply NoDup_app. split; [exact Hs|]. split; [|apply NoDup_singleton].
        intros z Hz Hz'. apply list_elem_of_singleton in Hz'. subst. contradiction. }
      destruct (IH _ Hs') as [H1 H2]. split; [exact H1|]. intros x.
      rewrite H2, elem_of_app, list_elem_of_singleton, elem_of_cons. tauto.
Qed.

(** GET /:id answers the product with that id, which is one of the
    catalog's, and answers 404 exactly when no product has the id. *)
Theorem get_product_found (products : list product) (i : string) :
  (forall p, get_product products i = Ok p -> id p = i /\ p ∈ products) /\
  ((forall p, p ∈ products -> id p <> i) <-> get_product products i = Err 404 "Product not found").
Proof.
  unfold get_product. split; [|split].
  - intros p. destruct (List.find _ products) as [q|] eqn:E; intros H; [|discriminate].
    injection H as <-. apply List.find_some in E as [Hin Hq].
    split; [exact (bool_decide_eq_true_1 _ Hq)|apply list_elem_of_In, Hin].
  - intros H. destruct (List.find _ products) as [q|] eqn:E; [|reflexivity].
    apply List.find_some in E as [Hin Hq]. exfalso.
    apply (H q); [apply list_elem_of_In, Hin|exact (bool_decide_eq_true_1 _ Hq)].
  - intros H p Hp Hid. destruct (List.find _ products) as [q|] eqn:E; [discriminate|].
    pose proof (List.find_none _ _ E p (proj1 (list_elem_of_In _ _) Hp)) as Hf. simpl in Hf.
    rewrite bool_decide_eq_true_2 in Hf by exact Hid. discriminate.
Qed.

(** GET /categories/list lists every category of the catalog exactly
    once, and nothing else. *)
Theorem categories_distinct (products : list product) :
  NoDup (categories products) /\
  forall c, c ∈ categories products <-> exists p, p ∈ products /\ category p = c.
Proof.
  unfold categories. destruct (dedup_spec (map category products)) as [H1 H2].
  split; [exact H1|]. intros c. rewrite H2, list_elem_of_In, in_map_iff.
  split; intros (p & Hp & Hc); exists p; rewrite list_elem_of_In in *; auto.
Qed.

(** GET /featured/list returns at most six products, each of them a
    catalog product rated at least 4.0 with more than 10 in stock. *)
Theorem featured_filtered (products : list product) :
  length (featured products) <= 6 /\
  forall p, p ∈ featured products ->
    p ∈ products /\ (4.0 <=? rating p)%float = true /\ (10 < stock p)%Z.
Proof.
  unfold featured. split; [rewrite length_take; lia|].
  intros p Hp. apply elem_of_take in Hp as (i & Hi & _).
  apply list_elem_of_lookup_2 in Hi. rewrite (OrderRouteFacts.sort_perm _) in Hi.
  apply list_elem_of_In, filter_In in Hi as [Hin Hf]. apply andb_true_iff in Hf as [Hr Hs].
  split; [apply list_elem_of_In, Hin|]. split; [exact Hr|apply Z.ltb_lt, Hs].
Qed.

End ProductFacts.

(* ================================================================== *)
(** * The cart page against the product and order routers *)

Module CheckoutFacts.
Import CartPage.




Lemma items_total_checkout (products : gmap string product) (items : list item) :
  Order.items_total (checkout_items products items) = calculateSubtotal products items.
Proof.
  unfold Order.items_total, checkout_items, calculateSubtotal. generalize 0%float.
  induction items as [|it items IH]; intros acc; simpl; [reflexivity|]. apply IH.
Qed.

(** When the order [handleCheckout] posts is accepted, the amounts the
    order router stores are the ones the page displayed: subtotal, tax,
    shipping and total are [calculateSubtotal], [calculateTax],
    [calculateShipping] and [calculateTotal] of the cart, to the bit. *)
Theorem checkout_charges_displayed (os os' : Order.store) (products : gmap string product)
    (items : list item) u a pm uuid now (o : Order.order) :
  Order.create_order os u (Some (checkout_items products items)) a pm uuid now = (os', Order.Ok 201 o) ->
  Order.subtotal o = calculateSubtotal products items /\
  Order.tax o = calculateTax products items /\
  Order.shipping o = calculateShipping products items /\
  Order.total o = calculateTotal products items.
Proof.
  intros H. destruct (OrderSpec.create_order_ok _ _ _ _ _ _ _ _ _ H) as (H1 & H2 & H3 & H4).
  simpl in *. rewrite items_total_checkout in *.
  unfold calculateTotal, calculateTax, calculateShipping. repeat split; assumption.
Qed.

End CheckoutFacts.

(* ================================================================== *)
(** * Properties of the client-side cart state *)

Module ReducerFacts.
Import CartContext.

Abbreviation numeric := (fun it : item => exists z, quantity it = Js.Num z).




















End ReducerFacts.

(* ================================================================== *)
(** * The further properties at concrete inputs *)

Module MoreWitnesses.
Import Examples.

Lemma missing_item_404_witness :
  (forall c, (∅ : Cart.store) !! "u1" = Some c -> Forall (fun it => Cart.id it <> "a") (Cart.items c)) /\
  ((exists msg, Cart.remove_item ∅ "u1" "a" = (∅, Cart.Err 404 msg)) /\
   (forall z, (1 <= z)%Z -> exists msg, Cart.update_item ∅ "u1" "a" (Some z) = (∅, Cart.Err 404 msg))).
Proof.
  assert (H : forall c, (∅ : Cart.store) !! "u1" = Some c ->
                Forall (fun it => Cart.id it <> "a") (Cart.items c))
    by (intros c Hc; rewrite lookup_empty in Hc; discriminate).
  split; [exact H|]. exact (CartRouterFacts.missing_item_404 ∅ "u1" "a" H).
Defined.

Lemma add_invalid_400_witness :
  ((None : option string) = None \/ None = Some "" \/ exists z, Some 1%Z = Some z /\ (z < 1)%Z) /\
  exists msg, Cart.add_item ex_store "u1" None (Some 1%Z) "c" 2%Z = (ex_store, Cart.Err 400 msg).
Proof.
  assert (H : (None : option string) = None \/ None = Some "" \/ exists z, Some 1%Z = Some z /\ (z < 1)%Z)
    by (left; reflexivity).
  split; [exact H|]. exact (CartRouterFacts.add_invalid_400 ex_store "u1" None (Some 1%Z) "c" 2%Z H).
Defined.

Lemma run_other_users_witness :
  Forall (fun o => Cart.op_user o <> "u2") ex_ops /\
  Cart.run ex_store ex_ops !! "u2" = ex_store !! "u2".
Proof.
  assert (H : Forall (fun o => Cart.op_user o <> "u2") ex_ops) by (repeat constructor; discriminate).
  split; [exact H|]. exact (CartRouterFacts.run_other_users ex_store ex_ops "u2" H).
Defined.

Lemma update_changes_one_item_witness :
  exists s' c', Cart.update_item ex_store "u1" "b" (Some 5%Z) = (s', Cart.Ok c') /\
  exists c k it,
    ex_store !! "u1" = Some c /\ s' !! "u1" = Some c' /\
    Cart.items c !! k = Some it /\ Cart.id it = "b" /\
    (forall j it', (j < k)%nat -> Cart.items c !! j = Some it' -> Cart.id it' <> "b") /\
    Cart.items c' !! k = Some (Cart.set_quantity (Js.Num 5) it) /\
    (forall j, j <> k -> Cart.items c' !! j = Cart.items c !! j) /\
    Cart.itemCount c' = Cart.sum_quantities (Cart.items c').
Proof.
  do 2 eexists. split; [reflexivity|].
  eapply CartRouterFacts.update_changes_one_item. reflexivity.
Defined.

Lemma remove_deletes_first_witness :
  exists s' c', Cart.remove_item ex_store "u1" "b" = (s', Cart.Ok c') /\
  exists c k it,
    ex_store !! "u1" = Some c /\ s' !! "u1" = Some c' /\
    Cart.items c !! k = Some it /\ Cart.id it = "b" /\
    (forall j it', (j < k)%nat -> Cart.items c !! j = Some it' -> Cart.id it' <> "b") /\
    Cart.items c' = delete k (Cart.items c) /\
    length (Cart.items c') = length (Cart.items c) - 1 /\
    Cart.itemCount c' = Cart.sum_quantities (Cart.items c').
Proof.
  do 2 eexists. split; [reflexivity|].
  eapply CartRouterFacts.remove_deletes_first. reflexivity.
Defined.


Lemma create_invalid_400_witness :
  ((None : option string) = None \/ None = Some "" \/ Some [example_item] = None \/ Some [example_item] = Some [] \/
   Some "1 Main St" = None \/ Some "1 Main St" = Some "") /\
  exists msg, Order.create_order [] None (Some [example_item]) (Some "1 Main St") None uuid_ex 0%Z
              = ([], Order.Err 400 msg).
Proof.
  assert (H : (None : option string) = None \/ None = Some "" \/ Some [example_item] = None \/ Some [example_item] = Some [] \/
              Some "1 Main St" = None \/ Some "1 Main St" = Some "") by (left; reflexivity).
  split; [exact H|].
  exact (OrderRouteFacts.create_invalid_400 [] None (Some [example_item]) (Some "1 Main St") None uuid_ex 0%Z H).
Defined.

Lemma create_appends_witness :
  exists os' o,
    Order.create_order ex_user_orders (Some "u1") (Some [example_item]) (Some "1 Main St") None uuid_ex 9%Z
      = (os', Order.Ok 201 o) /\
    Order.status o = "pending" /\ Order.createdAt o = 9%Z /\ Order.updatedAt o = 9%Z /\
    Order.estimatedDelivery o = (9 + 7 * Order.day_ms)%Z /\ Order.cancellationReason o = None /\
    OrderRoutes.find_user os' (Order.userId o) =
      Some (default [] (OrderRoutes.find_user ex_user_orders (Order.userId o)) ++ [o]) /\
    (forall u', u' <> Order.userId o -> OrderRoutes.find_user os' u' = OrderRoutes.find_user ex_user_orders u').
Proof.
  do 2 eexists. split; [reflexivity|].
  apply (OrderRouteFacts.create_appends ex_user_orders _ (Some "u1") (Some [example_item])
           (Some "1 Main St") None uuid_ex 9%Z). reflexivity.
Defined.

Lemma create_then_get_witness :
  Order.find_order [] (uuid_ex O) = None /\
  exists os' o,
    Order.create_order [] (Some "u1") (Some [example_item]) (Some "1 Main St") None uuid_ex 0%Z
      = (os', Order.Ok 201 o) /\
    OrderRoutes.get_order os' (Order.id o) = Order.Ok 200 o.
Proof.
  assert (H : Order.find_order [] (uuid_ex O) = None) by reflexivity.
  split; [exact H|]. do 2 eexists. split; [reflexivity|].
  apply (OrderRouteFacts.create_then_get [] _ (Some "u1") (Some [example_item])
           (Some "1 Main St") None uuid_ex 0%Z); [exact H|]. reflexivity.
Defined.

Lemma user_orders_newest_first_witness :
  OrderRoutes.find_user ex_user_orders "u1" = Some [dated_order "o1" 0; dated_order "o2" 5; dated_order "o3" 2] /\
  let r := OrderRoutes.get_user_orders ex_user_orders "u1" in
  r.2.1 ≡ₚ [dated_order "o1" 0; dated_order "o2" 5; dated_order "o3" 2] /\
  Sorted (fun a b => (Order.createdAt b <= Order.createdAt a)%Z) r.2.1 /\
  r.2.2 = length [dated_order "o1" 0; dated_order "o2" 5; dated_order "o3" 2] /\
  OrderRoutes.find_user r.1 "u1" = Some r.2.1 /\
  (forall u', u' <> "u1" -> OrderRoutes.find_user r.1 u' = OrderRoutes.find_user ex_user_orders u').
Proof.
  assert (H : OrderRoutes.find_user ex_user_orders "u1" =
              Some [dated_order "o1" 0; dated_order "o2" 5; dated_order "o3" 2]) by reflexivity.
  split; [exact H|]. exact (OrderRouteFacts.user_orders_newest_first _ _ _ H).
Defined.


Lemma unknown_order_404_witness :
  Order.find_order (sample_orders "pending") "o9" = None /\ "pending" ∈ Order.validStatuses /\
  (OrderRoutes.get_order (sample_orders "pending") "o9" = Order.Err 404 "Order not found" /\
   Order.update_status (sample_orders "pending") "o9" (Some "pending") 1%Z
     = (sample_orders "pending", Order.Err 404 "Order not found") /\
   Order.cancel_order (sample_orders "pending") "o9" None 1%Z
     = (sample_orders "pending", Order.Err 404 "Order not found")).
Proof.
  assert (H1 : Order.find_order (sample_orders "pending") "o9" = None) by reflexivity.
  assert (H2 : "pending" ∈ Order.validStatuses) by constructor.
  split; [exact H1|]. split; [exact H2|].
  exact (OrderRouteFacts.unknown_order_404 _ "o9" "pending" None 1%Z H1 H2).
Defined.

Lemma stats_counts_exact_witness :
  Forall (fun x => Order.status x ∈ Order.validStatuses) (OrderRoutes.all_orders ex_user_orders) /\
  ((OrderRoutes.stats_counts ex_user_orders).1 = length (OrderRoutes.all_orders ex_user_orders) /\
   (forall s, s ∈ Order.validStatuses ->
      (OrderRoutes.stats_counts ex_user_orders).2 !! s =
        Some (Js.Num (Z.of_nat (length (filter (fun o => Order.status o = s)
                                               (OrderRoutes.all_orders ex_user_orders)))))) /\
   (forall s, s ∉ Order.validStatuses -> (OrderRoutes.stats_counts ex_user_orders).2 !! s = None)).
Proof.
  assert (H : Forall (fun x => Order.status x ∈ Order.validStatuses) (OrderRoutes.all_orders ex_user_orders))
    by (repeat constructor).
  split; [exact H|]. exact (OrderRouteFacts.stats_counts_exact _ H).
Defined.

Lemma checkout_charges_displayed_witness :
  exists os' o,
    Order.create_order [] (Some "u1") (Some (CartPage.checkout_items ex_products ex_items))
      (Some "1 Main St") None uuid_ex 0%Z = (os', Order.Ok 201 o) /\
    Order.subtotal o = CartPage.calculateSubtotal ex_products ex_items /\
    Order.tax o = CartPage.calculateTax ex_products ex_items /\
    Order.shipping o = CartPage.calculateShipping ex_products ex_items /\
    Order.total o = CartPage.calculateTotal ex_products ex_items.
Proof.
  do 2 eexists. split; [reflexivity|].
  eapply (CheckoutFacts.checkout_charges_displayed [] _ ex_products ex_items (Some "u1")
           (Some "1 Main St") None uuid_ex 0%Z). reflexivity.
Defined.




End MoreWitnesses.
